(** * The HTTP connection of the ArangoDB Go driver

    A shallow embedding of
    [deps/github.com/arangodb/go-driver/http/connection.go]:
    the transport defaults of [newHTTPConnection], the content-type
    negotiation of [NewRequest], the response classification of [Do],
    the codec choice of [Unmarshal] and the dispatch of
    [SetAuthentication].

    Go values that live behind pointers (connections, transports, the
    capture slots a caller attaches to a context) are kept in a [Store];
    every method is a computation that threads that store and ends in a
    value, a returned error, or a panic. *)

From Stdlib Require Import ZArith String Ascii List Lia DecimalString.
From stdpp Require Import base option gmap strings list.

Local Open Scope Z_scope.

(** ** Strings and byte slices *)

Module Strings.

(** [strings.HasPrefix] *)
Fixpoint HasPrefix (s prefix : string) {struct prefix} : bool :=
  match prefix, s with
  | EmptyString, _ => true
  | String _ _, EmptyString => false
  | String p prefix', String c s' => Ascii.eqb c p && HasPrefix s' prefix'
  end.

(** [strings.Contains]: does [substr] occur somewhere in [s]. *)
Fixpoint Contains (s substr : string) : bool :=
  HasPrefix s substr ||
  match s with
  | EmptyString => false
  | String _ s' => Contains s' substr
  end.

(** [strings.Split(s, sep)] for a separator of one byte: the pieces of [s]
    between the occurrences of [sep]; always at least one piece. *)
Fixpoint Split (s : string) (sep : ascii) : list string :=
  match s with
  | EmptyString => [EmptyString]
  | String c s' =>
      if Ascii.eqb c sep then EmptyString :: Split s' sep
      else match Split s' sep with
           | piece :: rest => String c piece :: rest
           | [] => [String c EmptyString]
           end
  end.

(** [fmt.Sprintf("%d", n)] *)
Definition FormatInt (n : Z) : string := NilZero.string_of_int (Z.to_int n).

End Strings.

(** A [[]byte]. *)
Abbreviation bytes := (list Byte.byte).

(** The conversions [string(b)] and [[]byte(s)]. *)
Definition string_of_bytes (b : bytes) : string := String.string_of_list_byte b.
Definition bytes_of_string (s : string) : bytes := String.list_byte_of_string s.

(** ** Errors and outcomes *)

Inductive error : Type :=
  | InvalidArgumentError (Message : string)            (* driver.InvalidArgumentError *)
  | ArangoError (HasError : bool) (Code ErrorNum : Z) (ErrorMessage : string)
                                                         (* driver.ArangoError *)
  | Errorf (msg : string)                               (* fmt.Errorf *)
  | ForeignError (msg : string)                         (* an error of a library *)
  | WithStack (e : error).                              (* driver.WithStack *)

Inductive outcome (A : Type) : Type :=
  | Ok (a : A)
  | Err (e : error)
  | Panic.
Arguments Ok {A} a.
Arguments Err {A} e.
Arguments Panic {A}.

(** ** The enumerations of the driver *)

Module driver.

(** Modelled from the spec: [driver.ContentType] is an [int] whose constants
    are declared outside this file of the driver; the spec lists the
    enumeration as JSON, CompactBinary, in that order. *)
Definition ContentType := Z.
Definition ContentTypeJSON : ContentType := 0.
Definition ContentTypeVelocypack : ContentType := 1.

(** Modelled from the spec: the constants of [driver.AuthenticationType], an
    [int] declared outside this file; the spec lists the variants as Basic,
    JWT, Raw, in that order. *)
Definition AuthenticationType := Z.
Definition AuthenticationTypeBasic : AuthenticationType := 0.
Definition AuthenticationTypeJWT : AuthenticationType := 1.
Definition AuthenticationTypeRaw : AuthenticationType := 2.

End driver.

Definition DefaultMaxIdleConnsPerHost : Z := 64.

(** ** Values behind pointers *)

(** An address of a Go object. *)
Abbreviation loc := positive.

(** [url.URL], as far as the connection is concerned. *)
Record URL : Type := mkURL {
  Scheme : string;
  Host : string;
  Path : string;
  RawQuery : string
}.

(** [time.Second]: durations count nanoseconds. *)
Definition Second : Z := 1000000000.

(** [net.Dialer] *)
Record Dialer : Type := mkDialer {
  Timeout : Z;
  KeepAlive : Z;
  DualStack : bool
}.

(** The types and constants of [net/http]. *)
Module http.

Definition StatusFound : Z := 302.
Definition StatusUnauthorized : Z := 401.

Inductive ProxyFunc : Type :=
  | ProxyFromEnvironment
  | ProxyCustom (id : positive).

(** [http.Transport]: the fields the driver reads or writes.  A
    [*tls.Config] is known by its address only. *)
Record Transport : Type := mkTransport {
  Proxy : option ProxyFunc;
  DialContext : option Dialer;
  MaxIdleConns : Z;
  MaxIdleConnsPerHost : Z;
  IdleConnTimeout : Z;
  TLSHandshakeTimeout : Z;
  ExpectContinueTimeout : Z;
  TLSClientConfig : option loc
}.

(** An [http.RoundTripper]: a [*http.Transport], or some other
    implementation.  The pointer is the address of a transport of the
    store, or nil when the store holds no transport at that address. *)
Inductive RoundTripper : Type :=
  | HTTPTransport (t : loc)
  | CustomRoundTripper (id : positive).

(** [http.Client]; [CheckRedirect], when set, is the function that always
    returns the given error. *)
Record Client : Type := mkClient {
  clientTransport : option RoundTripper;  (* Transport *)
  CheckRedirect : option error
}.

(** A received [*http.Response]: the header maps a key to its values, and
    [Body] is what reading the body to its end yields (the bytes read, and
    the read error if there is one). *)
Record Response : Type := mkResponse {
  StatusCode : Z;
  Header : gmap string (list string);
  Body : bytes * option error
}.

End http.

Import http.

(** The configuration of a connection.  (The embedded
    [cluster.ConnectionConfig] is for the cluster connection and plays no
    role in this file.) *)
Record ConnectionConfig : Type := mkConnectionConfig {
  Endpoints : list string;
  TLSConfig : option loc;
  Transport : option RoundTripper;
  FailOnRedirect : bool;
  ContentType : driver.ContentType
}.

Record httpConnection : Type := mkHttpConnection {
  endpoint : URL;
  contentType : driver.ContentType;
  client : Client
}.

(** ** Requests and responses *)

(** The request structs are declared next to the connection; [NewRequest]
    sets [method] and [path] and leaves every other field at its zero
    value. *)
Record httpJSONRequest : Type := mkHttpJSONRequest {
  jsonMethod : string;
  jsonPath : string
}.

Record httpVPackRequest : Type := mkHttpVPackRequest {
  vpackMethod : string;
  vpackPath : string
}.

(** A [driver.Request]: one of the two request types of this package (the
    implementations of [httpRequest]), or a request of another package. *)
Inductive Request : Type :=
  | JSONRequest (r : httpJSONRequest)
  | VPackRequest (r : httpVPackRequest)
  | ForeignRequest (id : positive).

(** A [driver.Response]. *)
Inductive Response : Type :=
  | httpJSONResponse (resp : http.Response) (rawResponse : bytes)
  | httpVPackResponse (resp : http.Response) (rawResponse : bytes).

(** [http.Header.Get]: the first value stored under the key, or the empty
    string.  (The key the connection asks for is already in canonical
    form.) *)
Definition Header_Get (h : gmap string (list string)) (key : string) : string :=
  match h !! key with
  | Some (v :: _) => v
  | _ => EmptyString
  end.

(** [ioutil.ReadAll] *)
Definition ReadAll (body : bytes * option error) : bytes * option error := body.

(** ** The store and its computations *)

Record Store : Type := mkStore {
  conns : gmap loc httpConnection;       (* httpConnection objects *)
  transports : gmap loc http.Transport;  (* http.Transport objects *)
  rawSlots : gmap loc bytes;             (* []byte variables of callers *)
  respSlots : gmap loc Response          (* driver.Response variables of callers *)
}.

Definition M (A : Type) : Type := Store → Store * outcome A.

#[global] Instance M_ret : MRet M := λ A a st, (st, Ok a).

#[global] Instance M_bind : MBind M := λ A B f m st,
  match m st with
  | (st', Ok a) => f a st'
  | (st', Err e) => (st', Err e)
  | (st', Panic) => (st', Panic)
  end.

Definition throw {A : Type} (e : error) : M A := λ st, (st, Err e).
Definition panic {A : Type} : M A := λ st, (st, Panic).

(** Reading through a [*httpConnection]; a pointer to nothing panics. *)
Definition derefConn (c : loc) : M httpConnection := λ st,
  match conns st !! c with
  | Some conn => (st, Ok conn)
  | None => (st, Panic)
  end.

(** What a [*http.Transport] points to: the transport at its address, or
    nothing when the pointer is nil (the store holds no transport there). *)
Definition loadTransport (t : loc) : M (option http.Transport) := λ st,
  (st, Ok (transports st !! t)).

(** [*t = tr] *)
Definition storeTransport (t : loc) (tr : http.Transport) : M unit := λ st,
  (mkStore (conns st) (<[t := tr]> (transports st)) (rawSlots st) (respSlots st), Ok tt).

(** [&http.Transport{...}] and [&httpConnection{...}]: a new object at an
    address not in use. *)
Definition newTransport (tr : http.Transport) : M loc := λ st,
  let t := fresh (dom (transports st)) in
  (mkStore (conns st) (<[t := tr]> (transports st)) (rawSlots st) (respSlots st), Ok t).

Definition newConn (conn : httpConnection) : M loc := λ st,
  let c := fresh (dom (conns st)) in
  (mkStore (<[c := conn]> (conns st)) (transports st) (rawSlots st) (respSlots st), Ok c).

(** [*rawResponse = body] and [*respPtr = httpResp] *)
Definition storeRaw (p : loc) (body : bytes) : M unit := λ st,
  (mkStore (conns st) (transports st) (<[p := body]> (rawSlots st)) (respSlots st), Ok tt).

Definition storeResp (p : loc) (r : Response) : M unit := λ st,
  (mkStore (conns st) (transports st) (rawSlots st) (<[p := r]> (respSlots st)), Ok tt).

(** ** Constructing a connection *)

Definition setMaxIdleConnsPerHost (n : Z) (tr : http.Transport) : http.Transport :=
  mkTransport (Proxy tr) (DialContext tr) (MaxIdleConns tr) n
    (IdleConnTimeout tr) (TLSHandshakeTimeout tr) (ExpectContinueTimeout tr)
    (TLSClientConfig tr).

Definition setMaxIdleConns (n : Z) (tr : http.Transport) : http.Transport :=
  mkTransport (Proxy tr) (DialContext tr) n (MaxIdleConnsPerHost tr)
    (IdleConnTimeout tr) (TLSHandshakeTimeout tr) (ExpectContinueTimeout tr)
    (TLSClientConfig tr).

Definition setTLSClientConfig (cfg : option loc) (tr : http.Transport) : http.Transport :=
  mkTransport (Proxy tr) (DialContext tr) (MaxIdleConns tr) (MaxIdleConnsPerHost tr)
    (IdleConnTimeout tr) (TLSHandshakeTimeout tr) (ExpectContinueTimeout tr)
    cfg.

(** The transport [newHTTPConnection] builds when the configuration has
    none: the values of [http.DefaultTransport]. *)
Definition defaultTransport : http.Transport :=
  mkTransport (Some ProxyFromEnvironment)
    (Some (mkDialer (30 * Second) (30 * Second) true))
    100 0 (90 * Second) (10 * Second) (1 * Second) None.

(** The body of [if httpTransport != nil { ... }]: the three assignments
    through the pointer, in order. *)
Definition adjustTransport (tlsConfig : option loc) (tr : http.Transport) : http.Transport :=
  let tr :=
    if MaxIdleConnsPerHost tr =? 0
    then setMaxIdleConnsPerHost DefaultMaxIdleConnsPerHost tr
    else tr in
  let defaultMaxIdleConns := 3 * DefaultMaxIdleConnsPerHost in
  let tr :=
    if (0 <? MaxIdleConns tr) && (MaxIdleConns tr <? defaultMaxIdleConns)
    then setMaxIdleConns defaultMaxIdleConns tr
    else tr in
  match tlsConfig with
  | Some cfg => setTLSClientConfig (Some cfg) tr
  | None => tr
  end.

Definition redirectNotAllowed : error :=
  ArangoError true http.StatusFound 0 "Redirect not allowed".

Section Construction.

(** [util.FixupEndpointURLScheme] and [url.Parse] belong to other
    packages. *)
Variable FixupEndpointURLScheme : string → string.
Variable url_Parse : string → URL + error.

Definition newHTTPConnection (endpoint : string) (config : ConnectionConfig)
  : M loc :=
  let endpoint := FixupEndpointURLScheme endpoint in
  match url_Parse endpoint with
  | inr err => throw (WithStack err)
  | inl u =>
      '(httpTransport, transport) ←
        match Transport config with
        | Some (HTTPTransport t) => mret (Some t, Some (HTTPTransport t))
        | Some (CustomRoundTripper id) => mret (None, Some (CustomRoundTripper id))
        | None =>
            t ← newTransport defaultTransport;
            mret (Some t, Some (HTTPTransport t))
        end;
      _ ← match httpTransport with
          | Some t =>
              target ← loadTransport t;
              match target with
              | Some tr =>
                  storeTransport t (adjustTransport (TLSConfig config) tr)
              | None => mret tt  (* a nil pointer: nothing to adjust *)
              end
          | None => mret tt
          end;
      let httpClient :=
        mkClient transport
          (if FailOnRedirect config then Some redirectNotAllowed else None) in
      newConn (mkHttpConnection u (ContentType config) httpClient)
  end.

End Construction.

(** ** Creating requests *)

Definition validMethods : list string :=
  ["GET"; "POST"; "DELETE"; "HEAD"; "PATCH"; "PUT"; "OPTIONS"].

Definition isValidMethod (method : string) : bool :=
  existsb (String.eqb method) validMethods.

Definition gharialMarker : string := "_api/gharial".

Definition NewRequest (c : loc) (method path : string) : M Request :=
  if isValidMethod method then
    conn ← derefConn c;
    let ct := contentType conn in
    let ct :=
      if negb (ct =? driver.ContentTypeJSON) && Strings.Contains path gharialMarker
      then driver.ContentTypeJSON  (* calls to this API do not work well with vpack *)
      else ct in
    if ct =? driver.ContentTypeJSON then
      mret (JSONRequest (mkHttpJSONRequest method path))
    else if ct =? driver.ContentTypeVelocypack then
      mret (VPackRequest (mkHttpVPackRequest method path))
    else
      throw (WithStack (Errorf
        ("Unsupported content type " +:+ Strings.FormatInt (contentType conn))))
  else
    throw (WithStack (InvalidArgumentError ("Invalid method '" +:+ method +:+ "'"))).

(** ** Contexts and their capture slots *)

(** Keys of context values: a [driver.ContextKey], the key [httptrace] keeps
    to itself, or a key of some other type. *)
Inductive ctxKey : Type :=
  | ContextKey (name : string)
  | clientTraceKey
  | ForeignKey (id : positive).

#[global] Instance ctxKey_eq_dec : EqDecision ctxKey.
Proof. solve_decision. Defined.

(** Values a context can hold: a pointer to a [[]byte] or to a
    [driver.Response], the trace hooks, or anything else.  A pointer is the
    address of a variable of the caller.  Nil pointers are not among these
    values: a nil pointer to a [driver.Response] under the response key, on
    which the write of [Do] would panic, is outside the model, and no
    statement below says that [Do] is free of panics once a request is
    executed. *)
Inductive ctxValue : Type :=
  | BytesPtr (p : loc)
  | ResponsePtr (p : loc)
  | ClientTrace
  | ForeignValue (id : positive).

(** A [context.Context] is the chain of its [WithValue] layers, innermost
    first; [context.Background()] has none. *)
Definition Context : Type := list (ctxKey * ctxValue).

Definition Background : Context := [].

(** [ctx.Value(key)]; [None] is the nil interface. *)
Fixpoint Value (ctx : Context) (key : ctxKey) : option ctxValue :=
  match ctx with
  | [] => None
  | (k, v) :: parent => if decide (k = key) then Some v else Value parent key
  end.

Definition WithClientTrace (ctx : Context) : Context :=
  (clientTraceKey, ClientTrace) :: ctx.

Definition keyRawResponse : ctxKey := ContextKey "arangodb-rawResponse".
Definition keyResponse : ctxKey := ContextKey "arangodb-response".

(** ** Executing a request *)

(** The type assertion [req.(httpRequest)]. *)
Definition asHttpRequest (req : Request) : option Request :=
  match req with
  | ForeignRequest _ => None
  | _ => Some req
  end.

(** The media types [Do] knows. *)
Definition isJSONMediaType (mt : string) : bool :=
  String.eqb mt "application/json" || String.eqb mt "application/x-arango-dump".

Definition isVPackMediaType (mt : string) : bool :=
  String.eqb mt "application/x-velocypack".

(** [strings.Split(ct, ";")[0]] *)
Definition mediaType (ct : string) : string :=
  match Strings.Split ct ";" with
  | mt :: _ => mt
  | [] => EmptyString
  end.

Definition unsupportedContentType (ct : string) (status : Z) (body : bytes) : error :=
  Errorf ("Unsupported content type '" +:+ ct +:+ "' with status "
          +:+ Strings.FormatInt status +:+ " and content '"
          +:+ string_of_bytes body +:+ "'").

Section Execution.

(** The wire-level request and what the other packages do with it:
    rendering a request against an endpoint (a method of the request
    types), [WithContext] of [http.Request], and the round trip of
    [Do] of [http.Client]. *)
Variable HTTPRequest : Type.
Variable createHTTPRequest : Request → URL → option HTTPRequest * option error.
Variable WithContext : HTTPRequest → Context → HTTPRequest.
Variable clientDo : Client → HTTPRequest → http.Response + error.

Definition Do (ctx : option Context) (c : loc) (req : Request) : M Response :=
  match asHttpRequest req with
  | None =>
      throw (WithStack (InvalidArgumentError "request is not a httpRequest"))
  | Some httpReq =>
      conn ← derefConn c;
      let '(r, err) := createHTTPRequest httpReq (endpoint conn) in
      let rctx := match ctx with Some ctx => ctx | None => Background end in
      (* the trace only forwards WroteRequest to the request *)
      let rctx := WithClientTrace rctx in
      r ← match r with
          | Some r => mret (WithContext r rctx)
          | None => panic  (* WithContext on a nil request *)
          end;
      match err with
      | Some err => throw (WithStack err)
      | None =>
      match clientDo (client conn) r with
      | inr err => throw (WithStack err)
      | inl resp =>
          let rawResponse : option loc :=
            match ctx with
            | Some ctx =>
                match Value ctx keyRawResponse with
                | Some (BytesPtr buf) => Some buf
                | _ => None
                end
            | None => None
            end in
          (* Read response body *)
          let '(body, err) := ReadAll (Body resp) in
          match err with
          | Some err => throw (WithStack err)
          | None =>
              _ ← match rawResponse with
                  | Some p => storeRaw p body
                  | None => mret tt
                  end;
              let ct := Header_Get (Header resp) "Content-Type" in
              httpResp ←
                (let mt := mediaType ct in
                 if isJSONMediaType mt then
                   mret (httpJSONResponse resp body)
                 else if isVPackMediaType mt then
                   mret (httpVPackResponse resp body)
                 else if StatusCode resp =? http.StatusUnauthorized then
                   (* the server sometimes returns text/plain here *)
                   throw (WithStack (ArangoError true (StatusCode resp) 0
                                       (string_of_bytes body)))
                 else if (Z.of_nat (length body) =? 0) then
                   (* empty text/plain body as empty JSON object *)
                   let body := bytes_of_string "{}" in
                   _ ← match rawResponse with
                       | Some p => storeRaw p body
                       | None => mret tt
                       end;
                   mret (httpJSONResponse resp body)
                 else
                   throw (WithStack
                            (unsupportedContentType ct (StatusCode resp) body)));
              _ ← match ctx with
                  | Some ctx =>
                      match Value ctx keyResponse with
                      | Some (ResponsePtr respPtr) => storeResp respPtr httpResp
                      | _ => mret tt
                      end
                  | None => mret tt
                  end;
              mret httpResp
          end
      end
      end
  end.

(** The request was executed: [req] is one of this package's requests
    and was rendered against the endpoint of the live connection [c], the
    round trip answered with [resp], and reading the body to its end gave
    [body]. *)
Definition executed (ctx : option Context) (c : loc) (req : Request)
    (st : Store) (resp : http.Response) (body : bytes) : Prop :=
  ∃ conn httpReq r,
    conns st !! c = Some conn
    ∧ asHttpRequest req = Some httpReq
    ∧ createHTTPRequest httpReq (endpoint conn) = (Some r, None)
    ∧ clientDo (client conn)
        (WithContext r
           (WithClientTrace (match ctx with Some cx => cx | None => Background end)))
      = inl resp
    ∧ ReadAll (Body resp) = (body, None).

End Execution.

(** ** Vocabulary of the statements *)

(** The slot attached to a call context for the raw response, and the one
    for the response. *)
Definition rawSlotOf (ctx : option Context) : option loc :=
  match ctx with
  | Some cx =>
      match Value cx keyRawResponse with
      | Some (BytesPtr p) => Some p
      | _ => None
      end
  | None => None
  end.

Definition respSlotOf (ctx : option Context) : option loc :=
  match ctx with
  | Some cx =>
      match Value cx keyResponse with
      | Some (ResponsePtr p) => Some p
      | _ => None
      end
  | None => None
  end.

(** The store after a write to an optional slot. *)
Definition captureRaw (slot : option loc) (body : bytes) (st : Store) : Store :=
  match slot with
  | Some p => fst (storeRaw p body st)
  | None => st
  end.

Definition captureResp (slot : option loc) (r : Response) (st : Store) : Store :=
  match slot with
  | Some p => fst (storeResp p r st)
  | None => st
  end.

(** The media types with a response variant of their own. *)
Definition jsonMediaType (mt : string) : Prop :=
  mt = "application/json"%string ∨ mt = "application/x-arango-dump"%string.

Definition vpackMediaType (mt : string) : Prop :=
  mt = "application/x-velocypack"%string.

Definition otherMediaType (mt : string) : Prop :=
  ¬ jsonMediaType mt ∧ ¬ vpackMediaType mt.


(** ** Decoding raw objects *)

Definition openBrace : Byte.byte := Byte.x7b.
Definition closeBrace : Byte.byte := Byte.x7d.
Definition openBracket : Byte.byte := Byte.x5b.
Definition closeBracket : Byte.byte := Byte.x5d.

(** [data[i] == b]; the driver indexes only below [len(data)]. *)
Definition byteIs (data : bytes) (i : nat) (b : Byte.byte) : bool :=
  match data !! i with
  | Some x => Byte.eqb x b
  | None => false
  end.

Section Decoding.

(** The value behind [result], and the two codecs ([json.Unmarshal] and
    [velocypack.Unmarshal]): a decoded value or the codec's error. *)
Variable Target : Type.
Variable json_Unmarshal : bytes → Target → Target + error.
Variable velocypack_Unmarshal : bytes → Target → Target + error.

(** [if err := codec(data, result); err != nil { return driver.WithStack(err) }] *)
Definition decodeWith (codec : bytes → Target → Target + error)
    (data : bytes) (result : Target) : M Target :=
  match codec data result with
  | inl decoded => mret decoded
  | inr err => throw (WithStack err)
  end.

Definition Unmarshal (c : loc) (data : bytes) (result : Target) : M Target :=
  conn ← derefConn c;
  let ct := contentType conn in
  let ct :=
    if (ct =? driver.ContentTypeVelocypack) && (2 <=? Z.of_nat (length data)) then
      (* Poor mans auto detection of json *)
      let l := length data in
      if (byteIs data 0 openBrace && byteIs data (l - 1) closeBrace)
         || (byteIs data 0 openBracket && byteIs data (l - 1) closeBracket)
      then driver.ContentTypeJSON
      else ct
    else ct in
  if ct =? driver.ContentTypeJSON then
    decodeWith json_Unmarshal data result
  else if ct =? driver.ContentTypeVelocypack then
    decodeWith velocypack_Unmarshal data result
  else
    throw (WithStack (Errorf
      ("Unsupported content type " +:+ Strings.FormatInt (contentType conn)))).

End Decoding.

(** The byte sequence looks like JSON: at least two bytes, the first [{]
    and the last [}], or the first [[] and the last []]. *)
Definition looksLikeJSON (data : bytes) : Prop :=
  (2 ≤ length data)%nat ∧
  ((head data = Some openBrace ∧ last data = Some closeBrace)
   ∨ (head data = Some openBracket ∧ last data = Some closeBracket)).

(** What [Unmarshal] makes of a codec's answer: the decoded value, or the
    codec's error under a stack annotation. *)
Definition decoded {Target : Type} (r : Target + error) : outcome Target :=
  match r with
  | inl value => Ok value
  | inr err => Err (WithStack err)
  end.

(** ** Authentication *)

(** Modelled from the spec: the [driver.Authentication] interface, declared
    outside this file: a tagged value with named fields, read with [Type()]
    and [Get(property)]; a field may be absent. *)
Record Authentication : Type := mkAuthentication {
  authType : driver.AuthenticationType;
  authFields : gmap string string
}.

Definition auth_Type (auth : Authentication) : driver.AuthenticationType := authType auth.

Definition auth_Get (auth : Authentication) (property : string) : option string :=
  authFields auth !! property.

(** The credentials an authenticated connection adds to its requests. *)
Inductive httpAuthentication : Type :=
  | basicAuthentication (userName password : string)
  | jwtAuthentication (userName password : string)
  | rawAuthentication (value : string).

(** A [driver.Connection]: the connection of this file, or a connection
    decorated with credentials. *)
Inductive Connection : Type :=
  | HTTPConnection (c : loc)
  | AuthenticatedConnection (conn : Connection) (auth : httpAuthentication).

(** Modelled from the spec: the constructors [newBasicAuthentication],
    [newJWTAuthentication] and [newRawAuthentication] are not in this file.
    Basic and JWT require the username and password fields to be present,
    Raw requires the value field; without them there are no credentials (a
    nil [httpAuthentication]). *)
Definition newBasicAuthentication (userName password : option string)
  : option httpAuthentication :=
  match userName, password with
  | Some u, Some p => Some (basicAuthentication u p)
  | _, _ => None
  end.

Definition newJWTAuthentication (userName password : option string)
  : option httpAuthentication :=
  match userName, password with
  | Some u, Some p => Some (jwtAuthentication u p)
  | _, _ => None
  end.

Definition newRawAuthentication (value : option string)
  : option httpAuthentication :=
  match value with
  | Some v => Some (rawAuthentication v)
  | None => None
  end.

(** Modelled from the spec: the error of a decoration whose required field
    is absent (a configuration error of the unsupported-authentication
    kind). *)
Definition missingFieldError : error :=
  Errorf "Unsupported authentication: a required field is absent".

(** Modelled from the spec: [newAuthenticatedConnection] is not in this
    file.  It wraps the connection together with the credentials and does
    not touch the wrapped connection; absent credentials are a
    configuration error. *)
Definition newAuthenticatedConnection (conn : Connection)
    (auth : option httpAuthentication) : M Connection :=
  match auth with
  | Some a => mret (AuthenticatedConnection conn a)
  | None => throw missingFieldError
  end.

(** [if err != nil { return nil, driver.WithStack(err) }] around a call. *)
Definition withStack {A : Type} (m : M A) : M A := λ st,
  match m st with
  | (st', Err err) => (st', Err (WithStack err))
  | r => r
  end.

Definition SetAuthentication (c : loc) (auth : Authentication) : M Connection :=
  httpAuth ←
    (if auth_Type auth =? driver.AuthenticationTypeBasic then
       let userName := auth_Get auth "username" in
       let password := auth_Get auth "password" in
       mret (newBasicAuthentication userName password)
     else if auth_Type auth =? driver.AuthenticationTypeJWT then
       let userName := auth_Get auth "username" in
       let password := auth_Get auth "password" in
       mret (newJWTAuthentication userName password)
     else if auth_Type auth =? driver.AuthenticationTypeRaw then
       let value := auth_Get auth "value" in
       mret (newRawAuthentication value)
     else
       throw (WithStack (Errorf
         ("Unsupported authentication type " +:+ Strings.FormatInt (auth_Type auth)))));
  withStack (newAuthenticatedConnection (HTTPConnection c) httpAuth).

(** ** Connection metadata *)

(** The field [rawResponse] of either response type. *)
Definition rawResponseOf (r : Response) : bytes :=
  match r with
  | httpJSONResponse _ raw => raw
  | httpVPackResponse _ raw => raw
  end.

(** [driver.Protocol] *)
Inductive Protocol : Type :=
  | ProtocolHTTP
  | ProtocolVST1_0
  | ProtocolVST1_1.

Module Metadata.

Section Metadata.

(** [String] of [url.URL] belongs to [net/url]. *)
Variable url_String : URL → string.

(** [String]: the endpoint as string. *)
Definition connString (c : loc) : M string :=
  conn ← derefConn c;
  mret (url_String (endpoint conn)).

(** [Endpoints] *)
Definition Endpoints (c : loc) : M (list string) :=
  conn ← derefConn c;
  mret [url_String (endpoint conn)].

End Metadata.

(** [UpdateEndpoints]: do nothing here; the receiver is not read. *)
Definition UpdateEndpoints (c : loc) (endpoints : list string) : M unit :=
  mret tt.

(** [Protocols] *)
Definition Protocols (c : loc) : list Protocol := [ProtocolHTTP].

End Metadata.

(** ** Vocabulary of the transport statements *)

(** How the idle-connection limits of [tr'] derive from those of [tr]: an
    unset per-host limit becomes 64, a positive total limit below 192
    becomes 192, and every other value stays. *)
Definition limitsAdjusted (tr tr' : http.Transport) : Prop :=
  (MaxIdleConnsPerHost tr = 0 → MaxIdleConnsPerHost tr' = 64) ∧
  (MaxIdleConnsPerHost tr ≠ 0 → MaxIdleConnsPerHost tr' = MaxIdleConnsPerHost tr) ∧
  (0 < MaxIdleConns tr < 192 → MaxIdleConns tr' = 192) ∧
  (MaxIdleConns tr ≤ 0 ∨ 192 ≤ MaxIdleConns tr →
   MaxIdleConns tr' = MaxIdleConns tr).

(** * Properties *)

(** ** Strings *)

Module StringFacts.
Import Strings.

Lemma HasPrefix_iff (p s : string) :
  HasPrefix s p = true ↔ ∃ t, s = p +:+ t.
Proof.
  revert s. induction p as [|a p IH]; intros s; simpl.
  - split; [intros _; by exists s | done].
  - destruct s as [|c s]; simpl.
    + split; [done | intros [t Ht]; discriminate].
    + rewrite andb_true_iff, Ascii.eqb_eq, IH. split.
      * intros [-> [t ->]]. by exists t.
      * intros [t Ht]. injection Ht as -> ->. split; [done | by exists t].
Qed.

Lemma Contains_iff (substr s : string) :
  Contains s substr = true ↔ ∃ a b, s = a +:+ substr +:+ b.
Proof.
  induction s as [|c s IH]; simpl.
  - rewrite orb_false_r, HasPrefix_iff. split.
    + intros [t Ht]. by exists EmptyString, t.
    + intros [a [b Hab]]. destruct a; [by exists b | discriminate].
  - rewrite orb_true_iff, IH, (HasPrefix_iff substr (String c s)). split.
    + intros [[t Ht] | [a [b Hab]]].
      * by exists EmptyString, t.
      * exists (String c a), b. simpl. by rewrite Hab.
    + intros [a [b Hab]]. destruct a as [|c' a]; simpl in Hab.
      * left. by exists b.
      * right. injection Hab as -> ->. by exists a, b.
Qed.

Lemma Contains_infix (a substr b : string) :
  Contains (a +:+ substr +:+ b) substr = true.
Proof. apply Contains_iff. by exists a, b. Qed.

Lemma Split_nonempty (s : string) (sep : ascii) : Split s sep ≠ [].
Proof.
  destruct s as [|c s]; simpl; [done |].
  destruct (Ascii.eqb c sep); [done |]. by destruct (Split s sep).
Qed.

(** Without the separator there is one piece, the string itself. *)
Lemma Split_without_sep (s : string) (sep : ascii) :
  ¬ In sep (list_ascii_of_string s) → Split s sep = [s].
Proof.
  induction s as [|c s IH]; simpl; intros Hnot; [done |].
  destruct (Ascii.eqb_spec c sep) as [-> | Hne].
  - exfalso. apply Hnot. by left.
  - rewrite IH; [done |]. intros Hin. apply Hnot. by right.
Qed.

(** The first piece is what stands before the first separator. *)
Lemma Split_first_piece (m rest : string) (sep : ascii) :
  ¬ In sep (list_ascii_of_string m) →
  ∃ pieces, Split (m +:+ String sep rest) sep = m :: pieces.
Proof.
  induction m as [|c m IH]; simpl; intros Hnot.
  - rewrite Ascii.eqb_refl. by eexists.
  - destruct (Ascii.eqb_spec c sep) as [-> | Hne].
    + exfalso. apply Hnot. by left.
    + destruct IH as [pieces ->]; [|by eexists].
      intros Hin. apply Hnot. by right.
Qed.

End StringFacts.

(** The media type of a content type without parameters is the content type
    itself. *)
Lemma mediaType_plain (ct : string) :
  ¬ In ";"%char (list_ascii_of_string ct) → mediaType ct = ct.
Proof.
  intros Hnot. unfold mediaType. by rewrite StringFacts.Split_without_sep.
Qed.

(** The media type of [mt; params] is [mt]: the portion before the first
    [;]. *)
Lemma mediaType_params (mt params : string) :
  ¬ In ";"%char (list_ascii_of_string mt) →
  mediaType (mt +:+ String ";" params) = mt.
Proof.
  intros Hnot. unfold mediaType.
  by destruct (StringFacts.Split_first_piece mt params ";" Hnot) as [pieces ->].
Qed.

(** ** Stepping through computations *)

Lemma derefConn_live (c : loc) (conn : httpConnection) (st : Store) :
  conns st !! c = Some conn → derefConn c st = (st, Ok conn).
Proof. intros H. unfold derefConn. by rewrite H. Qed.

Lemma bind_Ok {A B : Type} (m : M A) (f : A → M B) (st st' : Store) (a : A) :
  m st = (st', Ok a) → (m ≫= f) st = f a st'.
Proof. intros H. unfold mbind, M_bind. by rewrite H. Qed.

Lemma isValidMethod_In (method : string) :
  isValidMethod method = true ↔ In method validMethods.
Proof.
  unfold isValidMethod. rewrite existsb_exists. split.
  - intros [x [Hin Heq]]. apply String.eqb_eq in Heq. by subst.
  - intros Hin. exists method. split; [done | apply String.eqb_refl].
Qed.

(** ** NewRequest *)

(** What [NewRequest] does once the method is accepted and the receiver is
    a live connection. *)
Lemma NewRequest_accepted (st : Store) (c : loc) (conn : httpConnection)
    (method path : string) :
  In method validMethods →
  conns st !! c = Some conn →
  NewRequest c method path st =
    (st,
     let ct :=
       if negb (contentType conn =? driver.ContentTypeJSON)
          && Strings.Contains path gharialMarker
       then driver.ContentTypeJSON else contentType conn in
     if ct =? driver.ContentTypeJSON then
       Ok (JSONRequest (mkHttpJSONRequest method path))
     else if ct =? driver.ContentTypeVelocypack then
       Ok (VPackRequest (mkHttpVPackRequest method path))
     else
       Err (WithStack (Errorf
         ("Unsupported content type " +:+ Strings.FormatInt (contentType conn))))).
Proof.
  intros Hm Hc. unfold NewRequest.
  apply isValidMethod_In in Hm. rewrite Hm.
  rewrite (bind_Ok _ _ _ _ _ (derefConn_live _ _ _ Hc)). cbv zeta.
  destruct (negb (contentType conn =? driver.ContentTypeJSON)
            && Strings.Contains path gharialMarker).
  - reflexivity.
  - destruct (contentType conn =? driver.ContentTypeJSON); [reflexivity |].
    destruct (contentType conn =? driver.ContentTypeVelocypack); reflexivity.
Qed.

Lemma NewRequest_rejected (st : Store) (c : loc) (method path : string) :
  ¬ In method validMethods →
  NewRequest c method path st =
    (st, Err (WithStack (InvalidArgumentError ("Invalid method '" +:+ method +:+ "'")))).
Proof.
  intros Hm. unfold NewRequest.
  destruct (isValidMethod method) eqn:E; [|reflexivity].
  apply isValidMethod_In in E. contradiction.
Qed.

(** [NewRequest] leaves the store as it found it, whatever it returns. *)
Lemma NewRequest_store (st : Store) (c : loc) (method path : string) :
  fst (NewRequest c method path st) = st.
Proof.
  unfold NewRequest. destruct (isValidMethod method); [|reflexivity].
  unfold mbind, M_bind, derefConn.
  destruct (conns st !! c) as [conn|]; [|reflexivity].
  cbv zeta.
  destruct (_ && _); [reflexivity |].
  destruct (contentType conn =? driver.ContentTypeJSON); [reflexivity |].
  destruct (contentType conn =? driver.ContentTypeVelocypack); reflexivity.
Qed.

(** C3: on a connection configured with velocypack, a request with a valid
    method for a path that contains [_api/gharial] is a JSON request. *)
Theorem NewRequest_gharial_is_JSON (st : Store) (c : loc) (conn : httpConnection)
    (method before after : string) :
  conns st !! c = Some conn →
  contentType conn = driver.ContentTypeVelocypack →
  In method validMethods →
  let path := before +:+ "_api/gharial" +:+ after in
  NewRequest c method path st =
    (st, Ok (JSONRequest (mkHttpJSONRequest method path))).
Proof.
  intros Hc Hct Hm path.
  rewrite (NewRequest_accepted st c conn method path Hm Hc), Hct.
  unfold path, gharialMarker. by rewrite StringFacts.Contains_infix.
Qed.

Lemma NewRequest_gharial_is_JSON_witness :
  let conn := mkHttpConnection (mkURL "http" "localhost:8529" "/" EmptyString)
                driver.ContentTypeVelocypack (mkClient None None) in
  let st := mkStore {[ 1%positive := conn ]} ∅ ∅ ∅ in
  NewRequest 1 "POST" "/_db/shop/_api/gharial/orders/vertex" st =
    (st, Ok (JSONRequest
               (mkHttpJSONRequest "POST" "/_db/shop/_api/gharial/orders/vertex"))).
Proof.
  intros conn st.
  apply (NewRequest_gharial_is_JSON st 1 conn "POST" "/_db/shop/" "/orders/vertex").
  - reflexivity.
  - reflexivity.
  - simpl. tauto.
Defined.

(** C4, as stated, fails: with a configured content type that is neither
    JSON nor velocypack, a path that contains [_api/gharial] gives a JSON
    request and no error. *)
Lemma NewRequest_unsupported_gharial_succeeds :
  let conn := mkHttpConnection (mkURL "http" "localhost:8529" "/" EmptyString)
                2 (mkClient None None) in
  let st := mkStore {[ 1%positive := conn ]} ∅ ∅ ∅ in
  In "GET"%string validMethods ∧
  contentType conn ≠ driver.ContentTypeJSON ∧
  contentType conn ≠ driver.ContentTypeVelocypack ∧
  NewRequest 1 "GET" "/_api/gharial/g" st =
    (st, Ok (JSONRequest (mkHttpJSONRequest "GET" "/_api/gharial/g"))).
Proof.
  intros conn st. split; [simpl; tauto |].
  split; [discriminate |]. split; [discriminate |]. reflexivity.
Qed.

(** C4, amended: with a valid method and a path that does not contain
    [_api/gharial], a configured content type that is neither JSON nor
    velocypack makes [NewRequest] itself return the unsupported-content-type
    error. *)
Theorem NewRequest_unsupported_content_type (st : Store) (c : loc)
    (conn : httpConnection) (method path : string) :
  conns st !! c = Some conn →
  In method validMethods →
  contentType conn ≠ driver.ContentTypeJSON →
  contentType conn ≠ driver.ContentTypeVelocypack →
  Strings.Contains path "_api/gharial" = false →
  NewRequest c method path st =
    (st, Err (WithStack (Errorf
       ("Unsupported content type " +:+ Strings.FormatInt (contentType conn))))).
Proof.
  intros Hc Hm Hj Hv Hp.
  rewrite (NewRequest_accepted st c conn method path Hm Hc).
  unfold gharialMarker. rewrite Hp, andb_false_r. cbv zeta.
  apply Z.eqb_neq in Hj, Hv. by rewrite Hj, Hv.
Qed.

Lemma NewRequest_unsupported_content_type_witness :
  let conn := mkHttpConnection (mkURL "http" "localhost:8529" "/" EmptyString)
                7 (mkClient None None) in
  let st := mkStore {[ 1%positive := conn ]} ∅ ∅ ∅ in
  NewRequest 1 "PUT" "/_api/document/c/k" st =
    (st, Err (WithStack (Errorf "Unsupported content type 7"))).
Proof.
  intros conn st.
  apply (NewRequest_unsupported_content_type st 1 conn "PUT" "/_api/document/c/k").
  - reflexivity.
  - simpl. tauto.
  - discriminate.
  - discriminate.
  - reflexivity.
Defined.

(** C8, as stated, fails: GET is in the allow-list, yet on a connection
    whose content type is unsupported [NewRequest] returns an error. *)
Lemma NewRequest_valid_method_fails :
  let conn := mkHttpConnection (mkURL "http" "localhost:8529" "/" EmptyString)
                2 (mkClient None None) in
  let st := mkStore {[ 1%positive := conn ]} ∅ ∅ ∅ in
  In "GET"%string validMethods ∧
  NewRequest 1 "GET" "/_api/version" st =
    (st, Err (WithStack (Errorf "Unsupported content type 2"))).
Proof. intros conn st. split; [simpl; tauto | reflexivity]. Qed.

(** C8, amended: a method of the allow-list is never answered with an
    invalid-argument error, and [NewRequest] succeeds for it when the
    content type in effect is JSON or velocypack (the configured one, or
    JSON for a path that contains [_api/gharial]); every other method is
    answered with the invalid-argument error. *)
Theorem NewRequest_method_validation (st : Store) (c : loc)
    (conn : httpConnection) (method path : string) :
  conns st !! c = Some conn →
  (In method validMethods →
     (∀ msg, snd (NewRequest c method path st)
             ≠ Err (WithStack (InvalidArgumentError msg))) ∧
     (contentType conn = driver.ContentTypeJSON
      ∨ contentType conn = driver.ContentTypeVelocypack
      ∨ Strings.Contains path "_api/gharial" = true →
      ∃ r, NewRequest c method path st = (st, Ok r))) ∧
  (¬ In method validMethods →
     NewRequest c method path st =
       (st, Err (WithStack
                   (InvalidArgumentError ("Invalid method '" +:+ method +:+ "'"))))).
Proof.
  intros Hc. split; [|apply NewRequest_rejected].
  intros Hm. rewrite (NewRequest_accepted st c conn method path Hm Hc).
  cbv zeta. unfold gharialMarker. split.
  - intros msg. simpl.
    destruct (_ && _); [discriminate |].
    destruct (contentType conn =? driver.ContentTypeJSON); [discriminate |].
    destruct (contentType conn =? driver.ContentTypeVelocypack); discriminate.
  - intros [Hj | [Hv | Hp]].
    + rewrite Hj. simpl. by eexists.
    + rewrite Hv. simpl. destruct (Strings.Contains _ _); by eexists.
    + rewrite Hp, andb_true_r.
      destruct (contentType conn =? driver.ContentTypeJSON) eqn:E; simpl.
      * rewrite E. by eexists.
      * by eexists.
Qed.

Lemma NewRequest_method_validation_witness :
  let conn := mkHttpConnection (mkURL "http" "localhost:8529" "/" EmptyString)
                driver.ContentTypeVelocypack (mkClient None None) in
  let st := mkStore {[ 1%positive := conn ]} ∅ ∅ ∅ in
  (∃ r, NewRequest 1 "OPTIONS" "/_api/version" st = (st, Ok r)) ∧
  NewRequest 1 "TRACE" "/_api/version" st =
    (st, Err (WithStack (InvalidArgumentError "Invalid method 'TRACE'"))).
Proof.
  intros conn st. split.
  - apply (NewRequest_method_validation st 1 conn "OPTIONS" "/_api/version").
    + reflexivity.
    + simpl. tauto.
    + right. left. reflexivity.
  - apply (NewRequest_method_validation st 1 conn "TRACE" "/_api/version").
    + reflexivity.
    + simpl. intros H. repeat destruct H as [H | H]; try discriminate H. exact H.
Defined.

(** C10: [NewRequest] works on a local copy of the content type.  Whatever
    the method and the path (a gharial path included), the store after the
    call is the store before it, so the connection keeps its content type,
    endpoint and client, and a later [NewRequest] for a path without
    [_api/gharial] is served with the configured format. *)
Theorem NewRequest_leaves_connection (st : Store) (c : loc)
    (conn : httpConnection) (method path method' path' : string) :
  conns st !! c = Some conn →
  In method' validMethods →
  Strings.Contains path' "_api/gharial" = false →
  let st' := fst (NewRequest c method path st) in
  st' = st ∧
  (∃ conn', conns st' !! c = Some conn'
            ∧ contentType conn' = contentType conn
            ∧ endpoint conn' = endpoint conn
            ∧ client conn' = client conn) ∧
  NewRequest c method' path' st' = NewRequest c method' path' st ∧
  (contentType conn = driver.ContentTypeJSON →
     snd (NewRequest c method' path' st')
     = Ok (JSONRequest (mkHttpJSONRequest method' path'))) ∧
  (contentType conn = driver.ContentTypeVelocypack →
     snd (NewRequest c method' path' st')
     = Ok (VPackRequest (mkHttpVPackRequest method' path'))).
Proof.
  intros Hc Hm Hp st'.
  assert (Hst : st' = st) by apply NewRequest_store.
  rewrite Hst. split; [reflexivity |].
  split; [by exists conn |]. split; [reflexivity |].
  rewrite (NewRequest_accepted st c conn method' path' Hm Hc).
  unfold gharialMarker. rewrite Hp, andb_false_r. cbv zeta.
  split; intros ->; reflexivity.
Qed.

Lemma NewRequest_leaves_connection_witness :
  let conn := mkHttpConnection (mkURL "http" "localhost:8529" "/" EmptyString)
                driver.ContentTypeVelocypack (mkClient None None) in
  let st := mkStore {[ 1%positive := conn ]} ∅ ∅ ∅ in
  let st' := fst (NewRequest 1 "GET" "/_api/gharial/g" st) in
  st' = st ∧
  snd (NewRequest 1 "GET" "/_api/version" st')
  = Ok (VPackRequest (mkHttpVPackRequest "GET" "/_api/version")).
Proof.
  intros conn st st'.
  destruct (NewRequest_leaves_connection st 1 conn
              "GET" "/_api/gharial/g" "GET" "/_api/version")
    as (Hst & _ & _ & _ & Hv).
  - reflexivity.
  - simpl. tauto.
  - reflexivity.
  - split; [exact Hst | exact (Hv eq_refl)].
Defined.

(** ** Do *)

Lemma isJSONMediaType_spec (mt : string) :
  isJSONMediaType mt = true ↔ jsonMediaType mt.
Proof.
  unfold isJSONMediaType, jsonMediaType.
  by rewrite orb_true_iff, !String.eqb_eq.
Qed.

Lemma isVPackMediaType_spec (mt : string) :
  isVPackMediaType mt = true ↔ vpackMediaType mt.
Proof. unfold isVPackMediaType, vpackMediaType. apply String.eqb_eq. Qed.

Lemma otherMediaType_spec (mt : string) :
  otherMediaType mt ↔ isJSONMediaType mt = false ∧ isVPackMediaType mt = false.
Proof.
  unfold otherMediaType.
  rewrite <- isJSONMediaType_spec, <- isVPackMediaType_spec.
  destruct (isJSONMediaType mt), (isVPackMediaType mt); intuition congruence.
Qed.

Lemma empty_body_spec (body : bytes) :
  (Z.of_nat (length body) =? 0) = true ↔ body = [].
Proof.
  rewrite Z.eqb_eq. destruct body; simpl; [done |]. split; [lia | done].
Qed.

Section ExecutionFacts.

Variable HTTPRequest : Type.
Variable createHTTPRequest : Request → URL → option HTTPRequest * option error.
Variable WithContext : HTTPRequest → Context → HTTPRequest.
Variable clientDo : Client → HTTPRequest → http.Response + error.

Local Abbreviation Do' := (Do HTTPRequest createHTTPRequest WithContext clientDo).
Local Abbreviation executed' :=
  (executed HTTPRequest createHTTPRequest WithContext clientDo).

(** Once the request is executed, [Do] is its classification: the store
    and the outcome, case by case, in the order of the source. *)
Lemma Do_executed (ctx : option Context) (c : loc) (req : Request)
    (st : Store) (resp : http.Response) (body : bytes) :
  executed' ctx c req st resp body →
  Do' ctx c req st =
    let ct := Header_Get (Header resp) "Content-Type" in
    let mt := mediaType ct in
    let raw := rawSlotOf ctx in
    let st1 := captureRaw raw body st in
    if isJSONMediaType mt then
      (captureResp (respSlotOf ctx) (httpJSONResponse resp body) st1,
       Ok (httpJSONResponse resp body))
    else if isVPackMediaType mt then
      (captureResp (respSlotOf ctx) (httpVPackResponse resp body) st1,
       Ok (httpVPackResponse resp body))
    else if StatusCode resp =? http.StatusUnauthorized then
      (st1, Err (WithStack (ArangoError true (StatusCode resp) 0
                              (string_of_bytes body))))
    else if Z.of_nat (length body) =? 0 then
      let body' := bytes_of_string "{}" in
      (captureResp (respSlotOf ctx) (httpJSONResponse resp body')
         (captureRaw raw body' st1),
       Ok (httpJSONResponse resp body'))
    else
      (st1, Err (WithStack (unsupportedContentType ct (StatusCode resp) body))).
Proof.
  intros (conn & httpReq & r & Hc & Hreq & Hr & Hdo & Hbody).
  unfold Do. rewrite Hreq.
  rewrite (bind_Ok _ _ _ _ _ (derefConn_live _ _ _ Hc)).
  rewrite Hr. cbv zeta. unfold mbind at 1, M_bind at 1, mret at 1, M_ret at 1.
  rewrite Hdo, Hbody.
  unfold mbind, M_bind, mret, M_ret, throw, rawSlotOf, respSlotOf,
    captureRaw, captureResp.
  destruct ctx as [cx|]; simpl.
  - destruct (Value cx keyRawResponse) as [[p| | |]|];
      destruct (Value cx keyResponse) as [[q| | |]|]; simpl;
      destruct (isJSONMediaType _); try reflexivity;
      destruct (isVPackMediaType _); try reflexivity;
      destruct (StatusCode resp =? http.StatusUnauthorized); try reflexivity;
      destruct (Z.of_nat (length body) =? 0); reflexivity.
  - destruct (isJSONMediaType _); try reflexivity;
      destruct (isVPackMediaType _); try reflexivity;
      destruct (StatusCode resp =? http.StatusUnauthorized); try reflexivity;
      destruct (Z.of_nat (length body) =? 0); reflexivity.
Qed.

(** C1: an executed request is classified by the media type of the
    response: the first value of the [Content-Type] header (the empty
    string without one), up to its first [;].  The JSON and dump media
    types give a JSON response, the velocypack media type a velocypack
    response; any other media type gives, in this order, the authentication
    error carrying the body text for status 401, a JSON response over the
    two bytes [{}] for an empty body, and otherwise the
    unsupported-content-type error with the content-type string, the status
    code and the body. *)
Theorem Do_classifies (ctx : option Context) (c : loc) (req : Request)
    (st : Store) (resp : http.Response) (body : bytes) (ct mt : string) :
  executed' ctx c req st resp body →
  (∃ more, Header resp !! "Content-Type"%string = Some (ct :: more))
  ∨ (ct = EmptyString
     ∧ (Header resp !! "Content-Type"%string = None
        ∨ Header resp !! "Content-Type"%string = Some [])) →
  ¬ In ";"%char (list_ascii_of_string mt) →
  ct = mt ∨ (∃ params, ct = mt +:+ String ";" params) →
  let result := snd (Do' ctx c req st) in
  let other :=
    mt ≠ "application/json"%string
    ∧ mt ≠ "application/x-arango-dump"%string
    ∧ mt ≠ "application/x-velocypack"%string in
  (mt = "application/json"%string ∨ mt = "application/x-arango-dump"%string →
     result = Ok (httpJSONResponse resp body)) ∧
  (mt = "application/x-velocypack"%string →
     result = Ok (httpVPackResponse resp body)) ∧
  (other → StatusCode resp = 401 →
     result = Err (WithStack (ArangoError true 401 0 (string_of_bytes body)))) ∧
  (other → StatusCode resp ≠ 401 → body = [] →
     result = Ok (httpJSONResponse resp [Byte.x7b; Byte.x7d])) ∧
  (other → StatusCode resp ≠ 401 → body ≠ [] →
     result = Err (WithStack (Errorf
       ("Unsupported content type '" +:+ ct +:+ "' with status "
        +:+ Strings.FormatInt (StatusCode resp) +:+ " and content '"
        +:+ string_of_bytes body +:+ "'")))).
Proof.
  intros Hex Hheader Hnot Hshape result other. unfold result, other.
  rewrite (Do_executed _ _ _ _ _ _ Hex). cbv zeta.
  assert (Hct : Header_Get (Header resp) "Content-Type" = ct).
  { unfold Header_Get.
    destruct Hheader as [[more ->] | [-> [-> | ->]]]; reflexivity. }
  assert (Hmt : mediaType ct = mt).
  { destruct Hshape as [-> | [params ->]];
      [by apply mediaType_plain | by apply mediaType_params]. }
  rewrite Hct, Hmt.
  assert (Hother : mt ≠ "application/json"%string
                   ∧ mt ≠ "application/x-arango-dump"%string
                   ∧ mt ≠ "application/x-velocypack"%string →
                   isJSONMediaType mt = false ∧ isVPackMediaType mt = false).
  { intros (H1 & H2 & H3). apply otherMediaType_spec.
    unfold otherMediaType, jsonMediaType, vpackMediaType. tauto. }
  repeat split.
  - intros Hj. apply isJSONMediaType_spec in Hj. by rewrite Hj.
  - intros ->. reflexivity.
  - intros [Ej Ev]%Hother Hs. rewrite Ej, Ev, Hs. reflexivity.
  - intros [Ej Ev]%Hother Hs Hb. rewrite Ej, Ev.
    apply Z.eqb_neq in Hs. unfold http.StatusUnauthorized. rewrite Hs.
    subst body. reflexivity.
  - intros [Ej Ev]%Hother Hs Hb. rewrite Ej, Ev.
    apply Z.eqb_neq in Hs. unfold http.StatusUnauthorized. rewrite Hs.
    destruct (Z.of_nat (length body) =? 0) eqn:El; [|reflexivity].
    apply empty_body_spec in El. contradiction.
Qed.

(** C5: with a raw-response slot attached to the context of an executed
    request, the slot holds the bytes read from the transport when [Do]
    is done, except where an empty body under an unrecognised media type
    (and a status other than 401) is replaced by [{}]: then it holds the
    two bytes [{}]. *)
Theorem Do_raw_capture (cx : Context) (p : loc) (c : loc) (req : Request)
    (st : Store) (resp : http.Response) (body : bytes) :
  executed' (Some cx) c req st resp body →
  Value cx keyRawResponse = Some (BytesPtr p) →
  let mt := mediaType (Header_Get (Header resp) "Content-Type") in
  let substituted :=
    otherMediaType mt ∧ StatusCode resp ≠ 401 ∧ body = [] in
  let st' := fst (Do' (Some cx) c req st) in
  (¬ substituted → rawSlots st' !! p = Some body) ∧
  (substituted → rawSlots st' !! p = Some [Byte.x7b; Byte.x7d]).
Proof.
  intros Hex Hraw mt substituted st'. unfold st', substituted.
  rewrite (Do_executed _ _ _ _ _ _ Hex). cbv zeta. fold mt.
  unfold rawSlotOf, respSlotOf. rewrite Hraw.
  rewrite otherMediaType_spec.
  destruct (isJSONMediaType mt) eqn:Ej;
    [|destruct (isVPackMediaType mt) eqn:Ev;
      [|destruct (StatusCode resp =? http.StatusUnauthorized) eqn:Es;
        [|destruct (Z.of_nat (length body) =? 0) eqn:El]]].
  1-2: split; [intros _ | intros [[? ?] _]; discriminate];
       destruct (Value cx keyResponse) as [[q| | |]|]; simpl;
       apply lookup_insert_eq.
  - apply Z.eqb_eq in Es. split; [intros _ | intros (_ & Hs & _); done].
    simpl. apply lookup_insert_eq.
  - apply Z.eqb_neq in Es. apply empty_body_spec in El. split.
    + intros Hn. exfalso. apply Hn. done.
    + intros _.
      destruct (Value cx keyResponse) as [[q| | |]|]; simpl;
        apply lookup_insert_eq.
  - split; [intros _ | intros (_ & _ & Hb)].
    + simpl. apply lookup_insert_eq.
    + apply empty_body_spec in Hb. congruence.
Qed.

(** The response slots change only when [Do] returns a response. *)
Lemma Do_error_keeps_respSlots (ctx : option Context) (c : loc) (req : Request)
    (st : Store) :
  (∀ r, snd (Do' ctx c req st) ≠ Ok r) →
  respSlots (fst (Do' ctx c req st)) = respSlots st.
Proof.
  destruct (asHttpRequest req) as [httpReq|] eqn:Hreq;
    [|unfold Do; by rewrite Hreq].
  destruct (conns st !! c) as [conn|] eqn:Hc;
    [|unfold Do, mbind, M_bind, derefConn; by rewrite Hreq, Hc].
  destruct (createHTTPRequest httpReq (endpoint conn)) as [r err] eqn:Hr.
  destruct r as [r|];
    [|unfold Do, mbind, M_bind, derefConn, panic; by rewrite Hreq, Hc, Hr].
  destruct err as [err|];
    [unfold Do, mbind, M_bind, mret, M_ret, derefConn; by rewrite Hreq, Hc, Hr |].
  destruct (clientDo (client conn)
              (WithContext r
                 (WithClientTrace
                    (match ctx with Some cx => cx | None => Background end))))
    as [resp|err] eqn:Hdo;
    [|unfold Do, mbind, M_bind, mret, M_ret, derefConn;
      by rewrite Hreq, Hc, Hr, Hdo].
  destruct (ReadAll (Body resp)) as [body [err|]] eqn:Hbody;
    [unfold Do, mbind, M_bind, mret, M_ret, derefConn;
     by rewrite Hreq, Hc, Hr, Hdo, Hbody |].
  assert (Hex : executed' ctx c req st resp body)
    by (exists conn, httpReq, r; done).
  rewrite (Do_executed _ _ _ _ _ _ Hex). cbv zeta.
  assert (Hraw : ∀ b, respSlots (captureRaw (rawSlotOf ctx) b st) = respSlots st)
    by (intros b; by destruct (rawSlotOf ctx)).
  intros Hne.
  destruct (isJSONMediaType _); [exfalso; by eapply Hne |].
  destruct (isVPackMediaType _); [exfalso; by eapply Hne |].
  destruct (StatusCode resp =? http.StatusUnauthorized); [apply Hraw |].
  destruct (Z.of_nat (length body) =? 0); [exfalso; by eapply Hne | apply Hraw].
Qed.

(** C9: the response slots are written only when [Do] returns a response;
    so when an executed request fails in classification (status 401, or a
    non-empty body, under an unrecognised media type), [Do] returns an
    error, the response slots are what they were, and a raw-response slot
    attached to the context holds the body that was received. *)
Theorem Do_failure_captures (ctx : option Context) (c : loc) (req : Request)
    (st : Store) (resp : http.Response) (body : bytes) :
  let run := Do' ctx c req st in
  ((∀ r, snd run ≠ Ok r) → respSlots (fst run) = respSlots st) ∧
  (executed' ctx c req st resp body →
   otherMediaType (mediaType (Header_Get (Header resp) "Content-Type")) →
   StatusCode resp = 401 ∨ body ≠ [] →
     (∃ e, snd run = Err e) ∧
     respSlots (fst run) = respSlots st ∧
     (∀ cx p, ctx = Some cx → Value cx keyRawResponse = Some (BytesPtr p) →
              rawSlots (fst run) !! p = Some body)).
Proof.
  intros run. split; [apply Do_error_keeps_respSlots |].
  intros Hex [Ej Ev]%otherMediaType_spec Hfail.
  assert (Herr : ∃ e, snd run = Err e).
  { unfold run. rewrite (Do_executed _ _ _ _ _ _ Hex). cbv zeta. rewrite Ej, Ev.
    destruct (StatusCode resp =? http.StatusUnauthorized) eqn:Es; [by eexists |].
    destruct (Z.of_nat (length body) =? 0) eqn:El; [|by eexists].
    apply Z.eqb_neq in Es. apply empty_body_spec in El. destruct Hfail; done. }
  split; [exact Herr |]. split.
  - apply Do_error_keeps_respSlots. fold run. destruct Herr as [e ->]. done.
  - intros cx p -> Hp. unfold run.
    rewrite (Do_executed _ _ _ _ _ _ Hex). cbv zeta. rewrite Ej, Ev.
    unfold rawSlotOf. rewrite Hp.
    destruct (StatusCode resp =? http.StatusUnauthorized) eqn:Es;
      [simpl; apply lookup_insert_eq |].
    destruct (Z.of_nat (length body) =? 0) eqn:El;
      [|simpl; apply lookup_insert_eq].
    apply Z.eqb_neq in Es. apply empty_body_spec in El. destruct Hfail; done.
Qed.

End ExecutionFacts.

Lemma Do_classifies_witness :
  let conn := mkHttpConnection (mkURL "http" "localhost:8529" "/" EmptyString)
                driver.ContentTypeJSON (mkClient None None) in
  let st := mkStore {[ 1%positive := conn ]} ∅ ∅ ∅ in
  let resp := http.mkResponse 401 {[ "Content-Type"%string := ["text/plain; charset=utf-8"%string] ]}
                (bytes_of_string "not authorized", None) in
  snd (Do unit (λ _ _, (Some (), None)) (λ r _, r) (λ _ _, inl resp)
         None 1 (JSONRequest (mkHttpJSONRequest "GET" "/_api/version")) st)
  = Err (WithStack (ArangoError true 401 0 "not authorized")).
Proof.
  intros conn st resp.
  refine (proj1 (proj2 (proj2
            (Do_classifies unit (λ _ _, (Some (), None)) (λ r _, r)
               (λ _ _, inl resp) None 1
               (JSONRequest (mkHttpJSONRequest "GET" "/_api/version")) st
               resp (bytes_of_string "not authorized")
               "text/plain; charset=utf-8" "text/plain" _ _ _ _))) _ _).
  - exists conn, (JSONRequest (mkHttpJSONRequest "GET" "/_api/version")), ().
    repeat split; reflexivity.
  - left. exists []. reflexivity.
  - simpl. intuition discriminate.
  - right. exists " charset=utf-8"%string. reflexivity.
  - repeat split; discriminate.
  - reflexivity.
Defined.

Lemma Do_raw_capture_witness :
  let conn := mkHttpConnection (mkURL "http" "localhost:8529" "/" EmptyString)
                driver.ContentTypeJSON (mkClient None None) in
  let st := mkStore {[ 1%positive := conn ]} ∅ ∅ ∅ in
  let resp := http.mkResponse 204 ∅ ([], None) in
  let cx : Context := [(keyRawResponse, BytesPtr 5)] in
  rawSlots
    (fst (Do unit (λ _ _, (Some (), None)) (λ r _, r) (λ _ _, inl resp)
            (Some cx) 1 (JSONRequest (mkHttpJSONRequest "DELETE" "/_api/index/7")) st))
    !! 5%positive
  = Some [Byte.x7b; Byte.x7d].
Proof.
  intros conn st resp cx.
  apply (Do_raw_capture unit (λ _ _, (Some (), None)) (λ r _, r) (λ _ _, inl resp)
           cx 5%positive 1%positive
           (JSONRequest (mkHttpJSONRequest "DELETE" "/_api/index/7")) st resp []).
  - exists conn, (JSONRequest (mkHttpJSONRequest "DELETE" "/_api/index/7")), ().
    repeat split; reflexivity.
  - reflexivity.
  - split; [|split; [discriminate | reflexivity]].
    split.
    + intros [H | H]; vm_compute in H; discriminate H.
    + intros H. vm_compute in H. discriminate H.
Defined.

Lemma Do_failure_captures_witness :
  let conn := mkHttpConnection (mkURL "http" "localhost:8529" "/" EmptyString)
                driver.ContentTypeJSON (mkClient None None) in
  let st := mkStore {[ 1%positive := conn ]} ∅ ∅ ∅ in
  let resp := http.mkResponse 502 {[ "Content-Type"%string := ["text/html"%string] ]}
                (bytes_of_string "Bad Gateway", None) in
  let cx : Context := [(keyResponse, ResponsePtr 6); (keyRawResponse, BytesPtr 5)] in
  let st' :=
    fst (Do unit (λ _ _, (Some (), None)) (λ r _, r) (λ _ _, inl resp)
           (Some cx) 1 (JSONRequest (mkHttpJSONRequest "GET" "/_api/version")) st) in
  respSlots st' = ∅ ∧ rawSlots st' !! 5%positive = Some (bytes_of_string "Bad Gateway").
Proof.
  intros conn st resp cx st'.
  destruct (proj2 (Do_failure_captures unit (λ _ _, (Some (), None)) (λ r _, r)
                     (λ _ _, inl resp) (Some cx) 1
                     (JSONRequest (mkHttpJSONRequest "GET" "/_api/version")) st
                     resp (bytes_of_string "Bad Gateway")))
    as (_ & Hresp & Hraw).
  - exists conn, (JSONRequest (mkHttpJSONRequest "GET" "/_api/version")), ().
    repeat split; reflexivity.
  - split.
    + intros [H | H]; vm_compute in H; discriminate H.
    + intros H. vm_compute in H. discriminate H.
  - right. discriminate.
  - split; [exact Hresp | exact (Hraw cx 5%positive eq_refl eq_refl)].
Defined.

(** ** Unmarshal *)

Lemma byteIs_spec (data : bytes) (i : nat) (b : Byte.byte) :
  byteIs data i b = true ↔ data !! i = Some b.
Proof.
  unfold byteIs. destruct (data !! i) as [x|]; [|done]. split.
  - intros H. f_equal. by apply Byte.byte_dec_bl.
  - intros [= ->]. by apply Byte.byte_dec_lb.
Qed.

(** The test of the source, on indices, is the structural description. *)
Lemma sniff_spec (data : bytes) :
  (2 <=? Z.of_nat (length data))
  && ((byteIs data 0 openBrace && byteIs data (length data - 1) closeBrace)
      || (byteIs data 0 openBracket && byteIs data (length data - 1) closeBracket))
  = true
  ↔ looksLikeJSON data.
Proof.
  unfold looksLikeJSON.
  rewrite andb_true_iff, orb_true_iff, !andb_true_iff, !byteIs_spec.
  rewrite Z.leb_le, !head_lookup, !last_lookup, Nat.sub_1_r.
  split; intros [Hlen Hends]; (split; [lia | exact Hends]).
Qed.

Section DecodingFacts.

Variable Target : Type.
Variable json_Unmarshal : bytes → Target → Target + error.
Variable velocypack_Unmarshal : bytes → Target → Target + error.

Local Abbreviation Unmarshal' :=
  (Unmarshal Target json_Unmarshal velocypack_Unmarshal).

Lemma decodeWith_decoded (codec : bytes → Target → Target + error)
    (data : bytes) (result : Target) (st : Store) :
  decodeWith Target codec data result st = (st, decoded (codec data result)).
Proof. unfold decodeWith, decoded. by destruct (codec data result). Qed.

(** C2: under a velocypack connection, data of at least two bytes that
    begins with [{] and ends with [}], or begins with [[] and ends with
    []], goes to the JSON codec and all other data to the velocypack
    codec; under a JSON connection all data goes to the JSON codec; any
    other configured content type is the unsupported-content-type error;
    and an error of the codec comes back under a stack annotation. *)
Theorem Unmarshal_codec (st : Store) (c : loc) (conn : httpConnection)
    (data : bytes) (result : Target) :
  conns st !! c = Some conn →
  let run := Unmarshal' c data result st in
  (contentType conn = driver.ContentTypeVelocypack → looksLikeJSON data →
     run = (st, decoded (json_Unmarshal data result))) ∧
  (contentType conn = driver.ContentTypeVelocypack → ¬ looksLikeJSON data →
     run = (st, decoded (velocypack_Unmarshal data result))) ∧
  (contentType conn = driver.ContentTypeJSON →
     run = (st, decoded (json_Unmarshal data result))) ∧
  (contentType conn ≠ driver.ContentTypeJSON →
   contentType conn ≠ driver.ContentTypeVelocypack →
     run = (st, Err (WithStack (Errorf
              ("Unsupported content type "
               +:+ Strings.FormatInt (contentType conn)))))).
Proof.
  intros Hc run. unfold run, Unmarshal.
  rewrite (bind_Ok _ _ _ _ _ (derefConn_live _ _ _ Hc)). cbv zeta.
  pose proof (sniff_spec data) as Hsniff.
  repeat split.
  - intros Hct Hjson. apply Hsniff in Hjson. rewrite Hct in *.
    apply andb_true_iff in Hjson as [Hlen Hends].
    rewrite Hlen, Hends. simpl. apply decodeWith_decoded.
  - intros Hct Hjson. rewrite Hct in *. simpl.
    destruct (2 <=? Z.of_nat (length data)) eqn:Hlen; simpl.
    + destruct (_ || _) eqn:Hends.
      * exfalso. apply Hjson, Hsniff. reflexivity.
      * simpl. apply decodeWith_decoded.
    + apply decodeWith_decoded.
  - intros Hct. rewrite Hct. simpl. apply decodeWith_decoded.
  - intros Hj Hv. apply Z.eqb_neq in Hj, Hv. rewrite Hv. simpl.
    by rewrite Hj, Hv.
Qed.

End DecodingFacts.

Lemma Unmarshal_codec_witness :
  let conn := mkHttpConnection (mkURL "http" "localhost:8529" "/" EmptyString)
                driver.ContentTypeVelocypack (mkClient None None) in
  let st := mkStore {[ 1%positive := conn ]} ∅ ∅ ∅ in
  let json (data : bytes) (_ : nat) : nat + error := inl (length data) in
  let vpack (data : bytes) (_ : nat) : nat + error :=
    inr (ForeignError "not a velocypack slice") in
  (* the seven bytes of {"a":1} *)
  let data := [Byte.x7b; Byte.x22; Byte.x61; Byte.x22; Byte.x3a; Byte.x31; Byte.x7d] in
  Unmarshal nat json vpack 1 data 0%nat st = (st, Ok 7%nat).
Proof.
  intros conn st json vpack data.
  refine (proj1 (Unmarshal_codec nat json vpack st 1 conn data 0%nat _) _ _).
  - reflexivity.
  - reflexivity.
  - split; [simpl; lia | left; split; reflexivity].
Defined.

(** ** SetAuthentication *)

(** C6: [SetAuthentication] dispatches on the authentication type.  Basic
    and JWT read the fields [username] and [password] and Raw reads
    [value]; with the fields present the result is the connection decorated
    with those credentials, with a field absent it is the configuration
    error; any other type is answered at once with the
    unsupported-authentication error; and in every case, the error cases
    included, the store, and with it the wrapped connection, is what it
    was. *)
Theorem SetAuthentication_dispatch (st : Store) (c : loc) (auth : Authentication) :
  let run := SetAuthentication c auth st in
  let username := authFields auth !! "username" in
  let password := authFields auth !! "password" in
  let value := authFields auth !! "value" in
  fst run = st ∧
  (authType auth = driver.AuthenticationTypeBasic →
     (∀ u p, username = Some u → password = Some p →
        snd run = Ok (AuthenticatedConnection (HTTPConnection c)
                        (basicAuthentication u p))) ∧
     (username = None ∨ password = None →
        snd run = Err (WithStack missingFieldError))) ∧
  (authType auth = driver.AuthenticationTypeJWT →
     (∀ u p, username = Some u → password = Some p →
        snd run = Ok (AuthenticatedConnection (HTTPConnection c)
                        (jwtAuthentication u p))) ∧
     (username = None ∨ password = None →
        snd run = Err (WithStack missingFieldError))) ∧
  (authType auth = driver.AuthenticationTypeRaw →
     (∀ v, value = Some v →
        snd run = Ok (AuthenticatedConnection (HTTPConnection c)
                        (rawAuthentication v))) ∧
     (value = None → snd run = Err (WithStack missingFieldError))) ∧
  (authType auth ≠ driver.AuthenticationTypeBasic →
   authType auth ≠ driver.AuthenticationTypeJWT →
   authType auth ≠ driver.AuthenticationTypeRaw →
     snd run = Err (WithStack (Errorf
       ("Unsupported authentication type "
        +:+ Strings.FormatInt (authType auth))))).
Proof.
  intros run username password value.
  unfold run, SetAuthentication, auth_Type, auth_Get.
  fold username. fold password. fold value.
  unfold mbind, M_bind, mret, M_ret, throw, withStack,
    newAuthenticatedConnection, newBasicAuthentication, newJWTAuthentication,
    newRawAuthentication.
  split; [|split; [|split; [|split]]].
  - destruct (authType auth =? driver.AuthenticationTypeBasic);
      [destruct username, password; reflexivity |].
    destruct (authType auth =? driver.AuthenticationTypeJWT);
      [destruct username, password; reflexivity |].
    destruct (authType auth =? driver.AuthenticationTypeRaw);
      [destruct value; reflexivity | reflexivity].
  - intros ->. simpl. split.
    + intros u p -> ->. reflexivity.
    + intros [-> | ->]; [|destruct username]; reflexivity.
  - intros ->. simpl. split.
    + intros u p -> ->. reflexivity.
    + intros [-> | ->]; [|destruct username]; reflexivity.
  - intros ->. simpl. split.
    + intros v ->. reflexivity.
    + intros ->. reflexivity.
  - intros Hb Hj Hr. apply Z.eqb_neq in Hb, Hj, Hr.
    rewrite Hb, Hj, Hr. reflexivity.
Qed.

Lemma SetAuthentication_dispatch_witness :
  let conn := mkHttpConnection (mkURL "http" "localhost:8529" "/" EmptyString)
                driver.ContentTypeJSON (mkClient None None) in
  let st := mkStore {[ 1%positive := conn ]} ∅ ∅ ∅ in
  snd (SetAuthentication 1
         (mkAuthentication driver.AuthenticationTypeBasic
            {[ "username"%string := "u"%string ]}) st)
  = Err (WithStack missingFieldError)
  ∧ snd (SetAuthentication 1 (mkAuthentication 9 ∅) st)
    = Err (WithStack (Errorf "Unsupported authentication type 9")).
Proof.
  intros conn st. split.
  - refine (proj2 (proj1 (proj2 (SetAuthentication_dispatch st 1
              (mkAuthentication driver.AuthenticationTypeBasic
                 {[ "username"%string := "u"%string ]}))) _) _).
    + reflexivity.
    + right. reflexivity.
  - refine (proj2 (proj2 (proj2 (proj2 (SetAuthentication_dispatch st 1
              (mkAuthentication 9 ∅))))) _ _ _); discriminate.
Defined.

(** ** newHTTPConnection *)

Lemma adjustTransport_limits (tlsConfig : option loc) (tr : http.Transport) :
  limitsAdjusted tr (adjustTransport tlsConfig tr).
Proof.
  unfold limitsAdjusted, adjustTransport, DefaultMaxIdleConnsPerHost.
  destruct (Z.eqb_spec (MaxIdleConnsPerHost tr) 0) as [Eh | Eh]; cbv zeta.
  - destruct (Z.ltb_spec 0 (MaxIdleConns (setMaxIdleConnsPerHost 64 tr)));
      destruct (Z.ltb_spec (MaxIdleConns (setMaxIdleConnsPerHost 64 tr)) (3 * 64));
      destruct tlsConfig; simpl in *; repeat split; intros; lia.
  - destruct (Z.ltb_spec 0 (MaxIdleConns tr));
      destruct (Z.ltb_spec (MaxIdleConns tr) (3 * 64));
      destruct tlsConfig; simpl in *; repeat split; intros; lia.
Qed.

Section ConstructionFacts.

Variable FixupEndpointURLScheme : string → string.
Variable url_Parse : string → URL + error.

Local Abbreviation newHTTPConnection' :=
  (newHTTPConnection FixupEndpointURLScheme url_Parse).

(** The caller's transport is adjusted in place. *)
Lemma newHTTPConnection_given (endpoint : string) (config : ConnectionConfig)
    (st : Store) (u : URL) (t : loc) (tr : http.Transport) :
  url_Parse (FixupEndpointURLScheme endpoint) = inl u →
  Transport config = Some (HTTPTransport t) →
  transports st !! t = Some tr →
  transports (fst (newHTTPConnection' endpoint config st)) !! t
  = Some (adjustTransport (TLSConfig config) tr).
Proof.
  intros Hu Ht Htr. unfold newHTTPConnection. rewrite Hu, Ht.
  unfold mbind, M_bind, mret, M_ret, loadTransport, storeTransport, newConn.
  rewrite Htr. simpl. apply lookup_insert_eq.
Qed.

(** Without a transport in the configuration, a new one is made from the
    defaults and adjusted. *)
Lemma newHTTPConnection_default (endpoint : string) (config : ConnectionConfig)
    (st : Store) (u : URL) :
  url_Parse (FixupEndpointURLScheme endpoint) = inl u →
  Transport config = None →
  let t := fresh (dom (transports st)) in
  transports st !! t = None ∧
  transports (fst (newHTTPConnection' endpoint config st)) !! t
  = Some (adjustTransport (TLSConfig config) defaultTransport).
Proof.
  intros Hu Ht t. split.
  - apply not_elem_of_dom, is_fresh.
  - unfold newHTTPConnection. rewrite Hu, Ht.
    unfold mbind, M_bind, mret, M_ret, loadTransport, storeTransport,
      newConn, newTransport.
    simpl. fold t. rewrite lookup_insert_eq. simpl. apply lookup_insert_eq.
Qed.

(** C7, amended: when a connection is constructed over an adjustable
    transport, a per-host idle limit of zero becomes 64 and a total idle
    limit that is positive and below 192 becomes 192; a total limit of
    zero or less, and limits at or above those values, stay as they are.
    The transport the driver makes itself ends with 64 and 192. *)
Theorem newHTTPConnection_idle_limits (endpoint : string)
    (config : ConnectionConfig) (st : Store) (u : URL) :
  url_Parse (FixupEndpointURLScheme endpoint) = inl u →
  let st' := fst (newHTTPConnection' endpoint config st) in
  (∀ t tr, Transport config = Some (HTTPTransport t) →
           transports st !! t = Some tr →
           ∃ tr', transports st' !! t = Some tr' ∧ limitsAdjusted tr tr') ∧
  (Transport config = None →
     ∃ t tr', transports st !! t = None
              ∧ transports st' !! t = Some tr'
              ∧ MaxIdleConnsPerHost tr' = 64
              ∧ MaxIdleConns tr' = 192).
Proof.
  intros Hu st'. split.
  - intros t tr Ht Htr. exists (adjustTransport (TLSConfig config) tr).
    split; [by apply (newHTTPConnection_given _ _ _ u) |].
    apply adjustTransport_limits.
  - intros Ht.
    destruct (newHTTPConnection_default endpoint config st u Hu Ht) as [Hnew Hst'].
    eexists _, _. split; [exact Hnew |]. split; [exact Hst' |].
    by destruct (TLSConfig config).
Qed.

End ConstructionFacts.

Lemma newHTTPConnection_idle_limits_witness :
  let tr := mkTransport None None 10 0 0 0 0 None in
  let st := mkStore ∅ {[ 1%positive := tr ]} ∅ ∅ in
  let config := mkConnectionConfig ["http://localhost:8529"%string] None
                  (Some (HTTPTransport 1)) false driver.ContentTypeJSON in
  let parse (_ : string) : URL + error :=
    inl (mkURL "http" "localhost:8529" "/" EmptyString) in
  let st' := fst (newHTTPConnection id parse "http://localhost:8529" config st) in
  ∃ tr', transports st' !! 1%positive = Some tr'
         ∧ MaxIdleConnsPerHost tr' = 64 ∧ MaxIdleConns tr' = 192.
Proof.
  intros tr st config parse st'.
  destruct (proj1 (newHTTPConnection_idle_limits id parse
                     "http://localhost:8529" config st
                     (mkURL "http" "localhost:8529" "/" EmptyString) eq_refl)
              1%positive tr eq_refl eq_refl)
    as (tr' & Hst' & Hhost & _ & Htotal & _).
  exists tr'. split; [exact Hst' |].
  split; [apply Hhost; reflexivity | apply Htotal; simpl; lia].
Defined.

(** C7, as stated, fails: a total idle limit of zero (no limit, for
    [http.Transport]) is lower than 192 and is not raised. *)
Lemma newHTTPConnection_zero_total_kept :
  let tr := mkTransport None None 0 0 0 0 0 None in
  let st := mkStore ∅ {[ 1%positive := tr ]} ∅ ∅ in
  let config := mkConnectionConfig ["http://localhost:8529"%string] None
                  (Some (HTTPTransport 1)) false driver.ContentTypeJSON in
  let parse (_ : string) : URL + error :=
    inl (mkURL "http" "localhost:8529" "/" EmptyString) in
  let st' := fst (newHTTPConnection id parse "http://localhost:8529" config st) in
  MaxIdleConns tr < 3 * DefaultMaxIdleConnsPerHost ∧
  transports st' !! 1%positive = Some (mkTransport None None 0 64 0 0 0 None).
Proof. intros tr st config parse st'. split; [reflexivity | reflexivity]. Qed.

(** * Further properties of the connection *)

(** Splits a statement into its cases and closes those that follow from
    the constructors and the hypotheses. *)
Ltac settle_cases :=
  repeat split; intros;
  repeat match goal with
         | H : _ ∧ _ |- _ => destruct H
         | H : _ ∨ _ |- _ => destruct H
         | H : Ok _ = Ok _ |- _ => injection H as <-
         end;
  try discriminate; try congruence; auto;
  try (exfalso;
       unfold driver.ContentTypeJSON, driver.ContentTypeVelocypack in *; lia).

(** Turns the boolean comparisons among the hypotheses into equations. *)
Ltac Z_of_eqb :=
  repeat match goal with
         | H : (_ =? _) = true |- _ => apply Z.eqb_eq in H
         | H : (_ =? _) = false |- _ => apply Z.eqb_neq in H
         end.

(** ** NewRequest *)

Lemma NewRequest_dead_receiver (st : Store) (c : loc) (method path : string) :
  In method validMethods → conns st !! c = None →
  snd (NewRequest c method path st) = Panic.
Proof.
  intros Hm Hc. unfold NewRequest.
  apply isValidMethod_In in Hm. rewrite Hm.
  unfold mbind, M_bind, derefConn. by rewrite Hc.
Qed.

(** X1: the method is checked before the receiver is read.  A method
    outside the allow-list is answered with the invalid-argument error on
    every store and for every receiver, a nil one included; and
    [NewRequest] panics exactly when the method is accepted and the
    receiver is not a live connection. *)
Theorem NewRequest_method_checked_first (st : Store) (c : loc)
    (method path : string) :
  (¬ In method validMethods →
     NewRequest c method path st =
       (st, Err (WithStack
                   (InvalidArgumentError ("Invalid method '" +:+ method +:+ "'"))))) ∧
  (snd (NewRequest c method path st) = Panic
   ↔ In method validMethods ∧ conns st !! c = None).
Proof.
  split.
  - intros Hm. unfold NewRequest.
    destruct (isValidMethod method) eqn:Em; [|reflexivity].
    apply isValidMethod_In in Em. contradiction.
  - split.
    + intros Hp. destruct (isValidMethod method) eqn:Em.
      * apply isValidMethod_In in Em. split; [exact Em |].
        destruct (conns st !! c) as [conn|] eqn:Hc; [|reflexivity].
        rewrite (NewRequest_accepted st c conn method path Em Hc) in Hp.
        cbv zeta in Hp. simpl in Hp.
        destruct (_ && _); [discriminate |].
        destruct (contentType conn =? driver.ContentTypeJSON); [discriminate |].
        destruct (contentType conn =? driver.ContentTypeVelocypack); discriminate.
      * unfold NewRequest in Hp. rewrite Em in Hp. discriminate.
    + intros [Hm Hc]. by apply NewRequest_dead_receiver.
Qed.

Lemma NewRequest_method_checked_first_witness :
  let st := mkStore ∅ ∅ ∅ ∅ in
  NewRequest 1 "TRACE" "/_api/version" st =
    (st, Err (WithStack (InvalidArgumentError "Invalid method 'TRACE'"))).
Proof.
  intros st.
  refine (proj1 (NewRequest_method_checked_first st 1 "TRACE" "/_api/version") _).
  simpl. intros H. repeat destruct H as [H | H]; try discriminate H. exact H.
Defined.

(** X2: on a live connection and with an accepted method, the request is a
    velocypack request exactly when velocypack is configured and the path
    does not contain [_api/gharial], a JSON request exactly when JSON is
    configured or the path contains the marker; and every request returned
    carries the method and the path as they were given. *)
Theorem NewRequest_variant (st : Store) (c : loc) (conn : httpConnection)
    (method path : string) :
  conns st !! c = Some conn →
  In method validMethods →
  let out := snd (NewRequest c method path st) in
  (out = Ok (VPackRequest (mkHttpVPackRequest method path))
   ↔ contentType conn = driver.ContentTypeVelocypack
     ∧ Strings.Contains path "_api/gharial" = false) ∧
  (out = Ok (JSONRequest (mkHttpJSONRequest method path))
   ↔ contentType conn = driver.ContentTypeJSON
     ∨ Strings.Contains path "_api/gharial" = true) ∧
  (∀ req, out = Ok req →
     req = JSONRequest (mkHttpJSONRequest method path)
     ∨ req = VPackRequest (mkHttpVPackRequest method path)).
Proof.
  intros Hc Hm out. unfold out.
  rewrite (NewRequest_accepted st c conn method path Hm Hc).
  unfold gharialMarker. cbv zeta. simpl.
  destruct (contentType conn =? driver.ContentTypeJSON) eqn:Ej;
    destruct (Strings.Contains path "_api/gharial") eqn:Ep; simpl;
    rewrite ?Ej; simpl;
    try destruct (contentType conn =? driver.ContentTypeVelocypack) eqn:Ev;
    Z_of_eqb; settle_cases.
Qed.

Lemma NewRequest_variant_witness :
  let conn := mkHttpConnection (mkURL "http" "localhost:8529" "/" EmptyString)
                driver.ContentTypeVelocypack (mkClient None None) in
  let st := mkStore {[ 1%positive := conn ]} ∅ ∅ ∅ in
  snd (NewRequest 1 "HEAD" "/_api/collection/c" st)
  = Ok (VPackRequest (mkHttpVPackRequest "HEAD" "/_api/collection/c")).
Proof.
  intros conn st.
  refine (proj2 (proj1 (NewRequest_variant st 1 conn "HEAD" "/_api/collection/c"
                          _ _)) _).
  - reflexivity.
  - simpl. tauto.
  - split; reflexivity.
Defined.

(** ** Do *)

Section ExecutionPaths.

Variable HTTPRequest : Type.
Variable createHTTPRequest : Request → URL → option HTTPRequest * option error.
Variable WithContext : HTTPRequest → Context → HTTPRequest.
Variable clientDo : Client → HTTPRequest → http.Response + error.

Local Abbreviation Do' := (Do HTTPRequest createHTTPRequest WithContext clientDo).
Local Abbreviation executed' :=
  (executed HTTPRequest createHTTPRequest WithContext clientDo).

(** The context the wire-level request is sent with. *)
Local Abbreviation rctxOf ctx :=
  (WithClientTrace (match ctx with Some cx => cx | None => Background end)).

Ltac run_Do :=
  unfold Do, mbind, M_bind, mret, M_ret, derefConn, panic, throw.

Lemma Do_foreign (ctx : option Context) (c : loc) (req : Request) (st : Store) :
  asHttpRequest req = None →
  Do' ctx c req st =
    (st, Err (WithStack (InvalidArgumentError "request is not a httpRequest"))).
Proof. intros Hreq. run_Do. by rewrite Hreq. Qed.

Lemma Do_dead (ctx : option Context) (c : loc) (req httpReq : Request)
    (st : Store) :
  asHttpRequest req = Some httpReq →
  conns st !! c = None →
  Do' ctx c req st = (st, Panic).
Proof. intros Hreq Hc. run_Do. by rewrite Hreq, Hc. Qed.

Lemma Do_nil_request (ctx : option Context) (c : loc) (req httpReq : Request)
    (st : Store) (conn : httpConnection) (err : option error) :
  asHttpRequest req = Some httpReq →
  conns st !! c = Some conn →
  createHTTPRequest httpReq (endpoint conn) = (None, err) →
  Do' ctx c req st = (st, Panic).
Proof. intros Hreq Hc Hr. run_Do. by rewrite Hreq, Hc, Hr. Qed.

Lemma Do_render_error (ctx : option Context) (c : loc) (req httpReq : Request)
    (st : Store) (conn : httpConnection) (r : HTTPRequest) (err : error) :
  asHttpRequest req = Some httpReq →
  conns st !! c = Some conn →
  createHTTPRequest httpReq (endpoint conn) = (Some r, Some err) →
  Do' ctx c req st = (st, Err (WithStack err)).
Proof. intros Hreq Hc Hr. run_Do. by rewrite Hreq, Hc, Hr. Qed.

Lemma Do_transport_error (ctx : option Context) (c : loc) (req httpReq : Request)
    (st : Store) (conn : httpConnection) (r : HTTPRequest) (err : error) :
  asHttpRequest req = Some httpReq →
  conns st !! c = Some conn →
  createHTTPRequest httpReq (endpoint conn) = (Some r, None) →
  clientDo (client conn) (WithContext r (rctxOf ctx)) = inr err →
  Do' ctx c req st = (st, Err (WithStack err)).
Proof. intros Hreq Hc Hr Hdo. run_Do. by rewrite Hreq, Hc, Hr, Hdo. Qed.

Lemma Do_read_error (ctx : option Context) (c : loc) (req httpReq : Request)
    (st : Store) (conn : httpConnection) (r : HTTPRequest)
    (resp : http.Response) (partial : bytes) (err : error) :
  asHttpRequest req = Some httpReq →
  conns st !! c = Some conn →
  createHTTPRequest httpReq (endpoint conn) = (Some r, None) →
  clientDo (client conn) (WithContext r (rctxOf ctx)) = inl resp →
  ReadAll (Body resp) = (partial, Some err) →
  Do' ctx c req st = (st, Err (WithStack err)).
Proof.
  intros Hreq Hc Hr Hdo Hbody. run_Do. by rewrite Hreq, Hc, Hr, Hdo, Hbody.
Qed.

(** Either the request is executed, or [Do] stops before the body is read:
    then the store is what it was and the outcome is an error or a panic. *)
Lemma Do_cases (ctx : option Context) (c : loc) (req : Request) (st : Store) :
  (∃ resp body, executed' ctx c req st resp body)
  ∨ (fst (Do' ctx c req st) = st
     ∧ (snd (Do' ctx c req st) = Panic ∨ ∃ e, snd (Do' ctx c req st) = Err e)).
Proof.
  destruct (asHttpRequest req) as [httpReq|] eqn:Hreq;
    [|right; rewrite (Do_foreign _ _ _ _ Hreq); eauto].
  destruct (conns st !! c) as [conn|] eqn:Hc;
    [|right; rewrite (Do_dead _ _ _ _ _ Hreq Hc); eauto].
  destruct (createHTTPRequest httpReq (endpoint conn)) as [[r|] err] eqn:Hr;
    [|right; rewrite (Do_nil_request _ _ _ _ _ _ _ Hreq Hc Hr); eauto].
  destruct err as [err|];
    [right; rewrite (Do_render_error _ _ _ _ _ _ _ _ Hreq Hc Hr); eauto |].
  destruct (clientDo (client conn) (WithContext r (rctxOf ctx)))
    as [resp|err] eqn:Hdo;
    [|right; rewrite (Do_transport_error _ _ _ _ _ _ _ _ Hreq Hc Hr Hdo); eauto].
  destruct (ReadAll (Body resp)) as [body [err|]] eqn:Hbody;
    [right; rewrite (Do_read_error _ _ _ _ _ _ _ _ _ _ Hreq Hc Hr Hdo Hbody); eauto |].
  left. exists resp, body, conn, httpReq, r. done.
Qed.

(** X3: [Do] writes to the store only for an executed request.  When the
    request is not one of this package's, the receiver is not live, the
    rendering, the round trip or the reading of the body fails, the store
    after [Do] is the store before it, capture slots included, and no
    response is returned. *)
Theorem Do_writes_only_when_executed (ctx : option Context) (c : loc)
    (req : Request) (st : Store) :
  (∀ resp body, ¬ executed' ctx c req st resp body) →
  fst (Do' ctx c req st) = st ∧ ∀ r, snd (Do' ctx c req st) ≠ Ok r.
Proof.
  intros Hnot. destruct (Do_cases ctx c req st) as [(resp & body & Hex) | [Hst Hout]].
  - exfalso. by eapply Hnot.
  - split; [exact Hst |]. intros r Hr.
    destruct Hout as [Hp | [e He]]; congruence.
Qed.

(** X4: the failures before classification come back as they are, under a
    stack annotation, and leave the store alone: the error of a rendering
    that still gave a request, the error of the round trip, and the error
    of reading the body; in the last case the bytes read so far are not
    captured, whatever slot is attached. *)
Theorem Do_early_errors (ctx : option Context) (c : loc) (req httpReq : Request)
    (st : Store) (conn : httpConnection) (r : HTTPRequest) (err : error) :
  asHttpRequest req = Some httpReq →
  conns st !! c = Some conn →
  (createHTTPRequest httpReq (endpoint conn) = (Some r, Some err) →
     Do' ctx c req st = (st, Err (WithStack err))) ∧
  (createHTTPRequest httpReq (endpoint conn) = (Some r, None) →
   clientDo (client conn) (WithContext r (rctxOf ctx)) = inr err →
     Do' ctx c req st = (st, Err (WithStack err))) ∧
  (∀ resp partial,
     createHTTPRequest httpReq (endpoint conn) = (Some r, None) →
     clientDo (client conn) (WithContext r (rctxOf ctx)) = inl resp →
     ReadAll (Body resp) = (partial, Some err) →
     Do' ctx c req st = (st, Err (WithStack err))).
Proof.
  intros Hreq Hc. split; [|split].
  - by apply Do_render_error.
  - by apply Do_transport_error.
  - intros resp partial. by apply Do_read_error.
Qed.


End ExecutionPaths.

(** The first piece of a split holds no separator, and the string is that
    piece alone or that piece, a separator and a remainder. *)
Lemma Split_first_piece_spec (s : string) (sep : ascii) :
  ∃ piece pieces,
    Strings.Split s sep = piece :: pieces
    ∧ ¬ In sep (list_ascii_of_string piece)
    ∧ (s = piece ∨ ∃ rest, s = piece +:+ String sep rest).
Proof.
  induction s as [|a s (piece & pieces & Hsplit & Hnot & Hshape)]; simpl.
  - exists EmptyString, []. split; [reflexivity |]. split; [intros [] | by left].
  - destruct (Ascii.eqb_spec a sep) as [-> | Hne].
    + exists EmptyString, (Strings.Split s sep).
      split; [reflexivity |]. split; [intros [] |]. right. by exists s.
    + rewrite Hsplit. exists (String a piece), pieces.
      split; [reflexivity |]. split.
      * simpl. intros [Heq | Hin]; [by apply Hne | by apply Hnot].
      * destruct Hshape as [-> | [rest ->]]; [by left | right; by exists rest].
Qed.

(** X6: the media type [Do] classifies by is the prefix of the content type
    up to its first [;]: it holds no [;], and the content type is the media
    type itself or the media type followed by [;] and parameters. *)
Theorem mediaType_spec (ct : string) :
  ¬ In ";"%char (list_ascii_of_string (mediaType ct))
  ∧ (ct = mediaType ct ∨ ∃ params, ct = mediaType ct +:+ String ";" params).
Proof.
  unfold mediaType.
  destruct (Split_first_piece_spec ct ";") as (piece & pieces & -> & Hnot & Hshape).
  by split.
Qed.

Section ExecutionCaptures.

Variable HTTPRequest : Type.
Variable createHTTPRequest : Request → URL → option HTTPRequest * option error.
Variable WithContext : HTTPRequest → Context → HTTPRequest.
Variable clientDo : Client → HTTPRequest → http.Response + error.

Local Abbreviation Do' := (Do HTTPRequest createHTTPRequest WithContext clientDo).
Local Abbreviation executed' :=
  (executed HTTPRequest createHTTPRequest WithContext clientDo).
Local Abbreviation Do_cases' :=
  (Do_cases HTTPRequest createHTTPRequest WithContext clientDo).
Local Abbreviation Do_executed' :=
  (Do_executed HTTPRequest createHTTPRequest WithContext clientDo).

(** The four tests of the classification, in the order of the source. *)
Ltac classify resp body :=
  destruct (isJSONMediaType _) eqn:Ej;
  [|destruct (isVPackMediaType _) eqn:Ev;
    [|destruct (StatusCode resp =? http.StatusUnauthorized) eqn:Es;
      [|destruct (Z.of_nat (length body) =? 0) eqn:El]]].

Lemma captureResp_rawSlots (slot : option loc) (r : Response) (st : Store) :
  rawSlots (captureResp slot r st) = rawSlots st.
Proof. by destruct slot. Qed.

Lemma captureRaw_respSlots (slot : option loc) (body : bytes) (st : Store) :
  respSlots (captureRaw slot body st) = respSlots st.
Proof. by destruct slot. Qed.

(** X7: whenever [Do] returns a response and a response slot is attached
    to the context, the slot holds the very response returned. *)
Theorem Do_response_capture (cx : Context) (q : loc) (c : loc) (req : Request)
    (st : Store) (r : Response) :
  snd (Do' (Some cx) c req st) = Ok r →
  Value cx keyResponse = Some (ResponsePtr q) →
  respSlots (fst (Do' (Some cx) c req st)) !! q = Some r.
Proof.
  intros Hok Hq.
  destruct (Do_cases' (Some cx) c req st)
    as [(resp & body & Hex) | [_ [Hp | [e He]]]]; [|congruence..].
  revert Hok. rewrite (Do_executed' _ _ _ _ _ _ Hex). cbv zeta.
  unfold respSlotOf. rewrite Hq.
  classify resp body; simpl; intros [= <-] || intros [=];
    apply lookup_insert_eq.
Qed.

(** X8: whenever [Do] returns a response and a raw-response slot is
    attached to the context, the slot holds the raw bytes of the response
    returned: the two side channels agree, also where [{}] stands in for an
    empty body. *)
Theorem Do_captures_agree (cx : Context) (p : loc) (c : loc) (req : Request)
    (st : Store) (r : Response) :
  snd (Do' (Some cx) c req st) = Ok r →
  Value cx keyRawResponse = Some (BytesPtr p) →
  rawSlots (fst (Do' (Some cx) c req st)) !! p = Some (rawResponseOf r).
Proof.
  intros Hok Hp.
  destruct (Do_cases' (Some cx) c req st)
    as [(resp & body & Hex) | [_ [Hpanic | [e He]]]]; [|congruence..].
  revert Hok. rewrite (Do_executed' _ _ _ _ _ _ Hex). cbv zeta.
  unfold rawSlotOf. rewrite Hp.
  classify resp body; simpl; intros [= <-] || intros [=];
    rewrite captureResp_rawSlots; simpl; apply lookup_insert_eq.
Qed.

(** X9: [Do] never touches the connections or the transports of the store,
    and of the capture slots it writes at most the two attached to the
    context: every other slot keeps its content, whatever the outcome. *)
Theorem Do_frame (ctx : option Context) (c : loc) (req : Request) (st : Store) :
  let st' := fst (Do' ctx c req st) in
  conns st' = conns st ∧
  transports st' = transports st ∧
  (∀ p, rawSlotOf ctx ≠ Some p → rawSlots st' !! p = rawSlots st !! p) ∧
  (∀ q, respSlotOf ctx ≠ Some q → respSlots st' !! q = respSlots st !! q).
Proof.
  intros st'. unfold st'.
  destruct (Do_cases' ctx c req st) as [(resp & body & Hex) | [-> _]]; [|done].
  rewrite (Do_executed' _ _ _ _ _ _ Hex). cbv zeta.
  assert (Hraw : ∀ b s p, rawSlotOf ctx ≠ Some p →
            rawSlots (captureRaw (rawSlotOf ctx) b s) !! p = rawSlots s !! p).
  { intros b s p Hne. destruct (rawSlotOf ctx) as [p0|]; [|done].
    simpl. apply lookup_insert_ne. congruence. }
  assert (Hresp : ∀ r s q, respSlotOf ctx ≠ Some q →
            respSlots (captureResp (respSlotOf ctx) r s) !! q = respSlots s !! q).
  { intros r s q Hne. destruct (respSlotOf ctx) as [q0|]; [|done].
    simpl. apply lookup_insert_ne. congruence. }
  assert (Hc1 : ∀ b s, conns (captureRaw (rawSlotOf ctx) b s) = conns s
                       ∧ transports (captureRaw (rawSlotOf ctx) b s) = transports s)
    by (intros b s; by destruct (rawSlotOf ctx)).
  assert (Hc2 : ∀ r s, conns (captureResp (respSlotOf ctx) r s) = conns s
                       ∧ transports (captureResp (respSlotOf ctx) r s) = transports s)
    by (intros r s; by destruct (respSlotOf ctx)).
  classify resp body; simpl;
    repeat split; intros;
    rewrite ?captureResp_rawSlots, ?captureRaw_respSlots,
      ?(proj1 (Hc2 _ _)), ?(proj2 (Hc2 _ _)),
      ?(proj1 (Hc1 _ _)), ?(proj2 (Hc1 _ _));
    rewrite ?Hresp, ?captureRaw_respSlots, ?Hraw by assumption;
    reflexivity.
Qed.

(** X10: parameters after the media type do not matter: a content type
    made of a JSON or velocypack media type, a [;] and anything after it is
    classified as the media type alone. *)
Theorem Do_ignores_parameters (ctx : option Context) (c : loc) (req : Request)
    (st : Store) (resp : http.Response) (body : bytes) (mt params : string) :
  executed' ctx c req st resp body →
  Header_Get (Header resp) "Content-Type" = mt +:+ String ";" params →
  (jsonMediaType mt →
     snd (Do' ctx c req st) = Ok (httpJSONResponse resp body)) ∧
  (vpackMediaType mt →
     snd (Do' ctx c req st) = Ok (httpVPackResponse resp body)).
Proof.
  intros Hex Hct.
  rewrite (Do_executed' _ _ _ _ _ _ Hex). cbv zeta. rewrite Hct.
  split.
  - intros Hj.
    assert (Hmt : mediaType (mt +:+ String ";" params) = mt).
    { apply mediaType_params. destruct Hj as [-> | ->]; simpl; intuition discriminate. }
    rewrite Hmt. apply isJSONMediaType_spec in Hj. by rewrite Hj.
  - intros Hv.
    assert (Hmt : mediaType (mt +:+ String ";" params) = mt).
    { apply mediaType_params. rewrite Hv. simpl. intuition discriminate. }
    rewrite Hmt. rewrite Hv. reflexivity.
Qed.

(** X11: a response without a [Content-Type] header has the empty media
    type, which is none of the known ones: with status 401 it is the
    authentication error, with an empty body the JSON response over [{}],
    and otherwise the unsupported-content-type error, whose message quotes
    an empty content type. *)
Theorem Do_without_content_type (ctx : option Context) (c : loc) (req : Request)
    (st : Store) (resp : http.Response) (body : bytes) :
  executed' ctx c req st resp body →
  Header resp !! "Content-Type"%string = None →
  let result := snd (Do' ctx c req st) in
  (StatusCode resp = 401 →
     result = Err (WithStack (ArangoError true 401 0 (string_of_bytes body)))) ∧
  (StatusCode resp ≠ 401 → body = [] →
     result = Ok (httpJSONResponse resp [Byte.x7b; Byte.x7d])) ∧
  (StatusCode resp ≠ 401 → body ≠ [] →
     result = Err (WithStack
                (unsupportedContentType EmptyString (StatusCode resp) body))).
Proof.
  intros Hex Hh result. unfold result.
  rewrite (Do_executed' _ _ _ _ _ _ Hex). cbv zeta.
  unfold Header_Get. rewrite Hh.
  change (isJSONMediaType (mediaType EmptyString)) with false.
  change (isVPackMediaType (mediaType EmptyString)) with false.
  cbv iota. unfold http.StatusUnauthorized. split; [|split].
  - intros ->. reflexivity.
  - intros Hs ->. apply Z.eqb_neq in Hs. by rewrite Hs.
  - intros Hs Hb. apply Z.eqb_neq in Hs. rewrite Hs.
    destruct (Z.of_nat (length body) =? 0) eqn:El; [|reflexivity].
    apply empty_body_spec in El. contradiction.
Qed.

(** X12: a request made by [NewRequest] on a connection is accepted by [Do]
    on that connection: [NewRequest] having succeeded, the connection is
    live and the request is one of this package's, so when the rendering,
    the round trip and the reading of the body succeed the request is
    executed, and [Do] does not answer with an invalid-argument error. *)
Theorem NewRequest_then_Do (ctx : option Context) (c : loc)
    (method path : string) (st : Store) (req : Request)
    (r : HTTPRequest) (resp : http.Response) (body : bytes) :
  snd (NewRequest c method path st) = Ok req →
  (∀ conn, conns st !! c = Some conn →
     createHTTPRequest req (endpoint conn) = (Some r, None)
     ∧ clientDo (client conn)
         (WithContext r
            (WithClientTrace
               (match ctx with Some cx => cx | None => Background end)))
       = inl resp) →
  ReadAll (Body resp) = (body, None) →
  let st' := fst (NewRequest c method path st) in
  executed' ctx c req st' resp body ∧
  (∀ msg, snd (Do' ctx c req st') ≠ Err (WithStack (InvalidArgumentError msg))).
Proof.
  intros Hnew Hworld Hbody st'.
  assert (Hst : st' = st) by apply NewRequest_store. rewrite Hst. clear st' Hst.
  assert (Hm : In method validMethods).
  { destruct (isValidMethod method) eqn:Em; [by apply isValidMethod_In |].
    unfold NewRequest in Hnew. rewrite Em in Hnew. discriminate. }
  destruct (conns st !! c) as [conn|] eqn:Hc.
  2:{ assert (Hp : snd (NewRequest c method path st) = Panic)
        by (apply NewRequest_dead_receiver; done).
      congruence. }
  assert (Hreq : asHttpRequest req = Some req).
  { rewrite (NewRequest_accepted st c conn method path Hm Hc) in Hnew.
    cbv zeta in Hnew. simpl in Hnew.
    destruct (_ && _); [by injection Hnew as <- |].
    destruct (contentType conn =? driver.ContentTypeJSON);
      [by injection Hnew as <- |].
    destruct (contentType conn =? driver.ContentTypeVelocypack);
      [by injection Hnew as <- | discriminate]. }
  destruct (Hworld conn eq_refl) as [Hr Hdo].
  assert (Hex : executed' ctx c req st resp body)
    by (exists conn, req, r; done).
  split; [exact Hex |].
  rewrite (Do_executed' _ _ _ _ _ _ Hex). cbv zeta.
  classify resp body; simpl; intros; discriminate.
Qed.

End ExecutionCaptures.

(** ** newHTTPConnection *)

Lemma adjustTransport_idem (tlsConfig : option loc) (tr : http.Transport) :
  adjustTransport tlsConfig (adjustTransport tlsConfig tr)
  = adjustTransport tlsConfig tr.
Proof.
  destruct tr as [proxy dial total host idle tls expect cfg].
  unfold adjustTransport, setMaxIdleConnsPerHost, setMaxIdleConns,
    setTLSClientConfig, DefaultMaxIdleConnsPerHost.
  simpl.
  destruct (Z.eqb_spec host 0); simpl;
    destruct (Z.ltb_spec 0 total); simpl;
    destruct (Z.ltb_spec total 192); simpl;
    destruct tlsConfig; simpl;
    repeat match goal with
           | |- context [?a =? ?b] => destruct (Z.eqb_spec a b); simpl
           | |- context [?a <? ?b] => destruct (Z.ltb_spec a b); simpl
           end;
    simpl in *; first [reflexivity | exfalso; lia].
Qed.

Lemma adjustTransport_other_fields (tlsConfig : option loc) (tr : http.Transport) :
  let tr' := adjustTransport tlsConfig tr in
  Proxy tr' = Proxy tr ∧
  DialContext tr' = DialContext tr ∧
  IdleConnTimeout tr' = IdleConnTimeout tr ∧
  TLSHandshakeTimeout tr' = TLSHandshakeTimeout tr ∧
  ExpectContinueTimeout tr' = ExpectContinueTimeout tr ∧
  TLSClientConfig tr'
  = match tlsConfig with Some cfg => Some cfg | None => TLSClientConfig tr end.
Proof.
  unfold adjustTransport.
  destruct (MaxIdleConnsPerHost tr =? 0); cbv zeta;
    destruct (_ && _); destruct tlsConfig; simpl; done.
Qed.

Section ConstructionPaths.

Variable FixupEndpointURLScheme : string → string.
Variable url_Parse : string → URL + error.

Local Abbreviation newHTTPConnection' :=
  (newHTTPConnection FixupEndpointURLScheme url_Parse).

Ltac run_new :=
  unfold newHTTPConnection, mbind, M_bind, mret, M_ret, loadTransport,
    storeTransport, newConn, newTransport, throw.

(** The client [newHTTPConnection] builds around a round tripper. *)
Local Abbreviation clientOf config rt :=
  (mkClient rt (if FailOnRedirect config then Some redirectNotAllowed else None)).

Lemma newHTTPConnection_run_given (endpoint : string) (config : ConnectionConfig)
    (st : Store) (u : URL) (t : loc) (tr : http.Transport) :
  url_Parse (FixupEndpointURLScheme endpoint) = inl u →
  Transport config = Some (HTTPTransport t) →
  transports st !! t = Some tr →
  newHTTPConnection' endpoint config st =
    (mkStore
       (<[fresh (dom (conns st)) :=
            mkHttpConnection u (ContentType config)
              (clientOf config (Some (HTTPTransport t)))]> (conns st))
       (<[t := adjustTransport (TLSConfig config) tr]> (transports st))
       (rawSlots st) (respSlots st),
     Ok (fresh (dom (conns st)))).
Proof. intros Hu Ht Htr. run_new. rewrite Hu, Ht. simpl. by rewrite Htr. Qed.

Lemma newHTTPConnection_run_custom (endpoint : string) (config : ConnectionConfig)
    (st : Store) (u : URL) (id : positive) :
  url_Parse (FixupEndpointURLScheme endpoint) = inl u →
  Transport config = Some (CustomRoundTripper id) →
  newHTTPConnection' endpoint config st =
    (mkStore
       (<[fresh (dom (conns st)) :=
            mkHttpConnection u (ContentType config)
              (clientOf config (Some (CustomRoundTripper id)))]> (conns st))
       (transports st) (rawSlots st) (respSlots st),
     Ok (fresh (dom (conns st)))).
Proof. intros Hu Ht. run_new. by rewrite Hu, Ht. Qed.

Lemma newHTTPConnection_run_default (endpoint : string) (config : ConnectionConfig)
    (st : Store) (u : URL) :
  url_Parse (FixupEndpointURLScheme endpoint) = inl u →
  Transport config = None →
  newHTTPConnection' endpoint config st =
    (mkStore
       (<[fresh (dom (conns st)) :=
            mkHttpConnection u (ContentType config)
              (clientOf config
                 (Some (HTTPTransport (fresh (dom (transports st))))))]> (conns st))
       (<[fresh (dom (transports st)) :=
            adjustTransport (TLSConfig config) defaultTransport]>
          (<[fresh (dom (transports st)) := defaultTransport]> (transports st)))
       (rawSlots st) (respSlots st),
     Ok (fresh (dom (conns st)))).
Proof.
  intros Hu Ht. run_new. rewrite Hu, Ht. simpl.
  by rewrite lookup_insert_eq.
Qed.

Lemma newHTTPConnection_run_nil (endpoint : string) (config : ConnectionConfig)
    (st : Store) (u : URL) (t : loc) :
  url_Parse (FixupEndpointURLScheme endpoint) = inl u →
  Transport config = Some (HTTPTransport t) →
  transports st !! t = None →
  newHTTPConnection' endpoint config st =
    (mkStore
       (<[fresh (dom (conns st)) :=
            mkHttpConnection u (ContentType config)
              (clientOf config (Some (HTTPTransport t)))]> (conns st))
       (transports st) (rawSlots st) (respSlots st),
     Ok (fresh (dom (conns st)))).
Proof. intros Hu Ht Htr. run_new. rewrite Hu, Ht. simpl. by rewrite Htr. Qed.

(** X13: constructing a second connection over the transport of a first
    one (as a cluster of endpoints does, one connection per endpoint from
    one configuration) changes no transport: the adjustment of the first
    construction is final. *)
Theorem newHTTPConnection_shared_transport (endpoint endpoint' : string)
    (config : ConnectionConfig) (st : Store) (u u' : URL) (t : loc)
    (tr : http.Transport) :
  url_Parse (FixupEndpointURLScheme endpoint) = inl u →
  url_Parse (FixupEndpointURLScheme endpoint') = inl u' →
  Transport config = Some (HTTPTransport t) →
  transports st !! t = Some tr →
  let st1 := fst (newHTTPConnection' endpoint config st) in
  let st2 := fst (newHTTPConnection' endpoint' config st1) in
  transports st2 = transports st1
  ∧ transports st1 !! t = Some (adjustTransport (TLSConfig config) tr).
Proof.
  intros Hu Hu' Ht Htr st1 st2.
  assert (H1 : transports st1 !! t = Some (adjustTransport (TLSConfig config) tr)).
  { unfold st1. rewrite (newHTTPConnection_run_given _ _ _ u t tr Hu Ht Htr).
    simpl. apply lookup_insert_eq. }
  split; [|exact H1].
  unfold st2.
  rewrite (newHTTPConnection_run_given _ _ _ u' t _ Hu' Ht H1). simpl.
  rewrite adjustTransport_idem. by apply insert_id.
Qed.

(** X14: on the caller's transport the construction writes the two idle
    limits and the TLS configuration and nothing else: proxy, dialer and
    timeouts stay, the TLS configuration becomes the one of the connection
    configuration when that is set and stays otherwise, and every other
    transport of the store is untouched. *)
Theorem newHTTPConnection_transport_fields (endpoint : string)
    (config : ConnectionConfig) (st : Store) (u : URL) (t : loc)
    (tr : http.Transport) :
  url_Parse (FixupEndpointURLScheme endpoint) = inl u →
  Transport config = Some (HTTPTransport t) →
  transports st !! t = Some tr →
  let st' := fst (newHTTPConnection' endpoint config st) in
  (∃ tr', transports st' !! t = Some tr'
          ∧ Proxy tr' = Proxy tr
          ∧ DialContext tr' = DialContext tr
          ∧ IdleConnTimeout tr' = IdleConnTimeout tr
          ∧ TLSHandshakeTimeout tr' = TLSHandshakeTimeout tr
          ∧ ExpectContinueTimeout tr' = ExpectContinueTimeout tr
          ∧ TLSClientConfig tr'
            = match TLSConfig config with
              | Some cfg => Some cfg
              | None => TLSClientConfig tr
              end) ∧
  (∀ t', t' ≠ t → transports st' !! t' = transports st !! t').
Proof.
  intros Hu Ht Htr st'. unfold st'.
  rewrite (newHTTPConnection_run_given _ _ _ u t tr Hu Ht Htr). simpl. split.
  - exists (adjustTransport (TLSConfig config) tr).
    split; [apply lookup_insert_eq | apply adjustTransport_other_fields].
  - intros t' Hne. by apply lookup_insert_ne.
Qed.

(** X15: with a round tripper that is not an [http.Transport] nothing is
    adjusted: no transport of the store changes, the TLS configuration of
    the connection configuration is not used, and the client of the new
    connection sends through the caller's round tripper. *)
Theorem newHTTPConnection_custom_round_tripper (endpoint : string)
    (config : ConnectionConfig) (st : Store) (u : URL) (id : positive) :
  url_Parse (FixupEndpointURLScheme endpoint) = inl u →
  Transport config = Some (CustomRoundTripper id) →
  let st' := fst (newHTTPConnection' endpoint config st) in
  transports st' = transports st ∧
  ∃ c conn, snd (newHTTPConnection' endpoint config st) = Ok c
            ∧ conns st' !! c = Some conn
            ∧ clientTransport (client conn) = Some (CustomRoundTripper id).
Proof.
  intros Hu Ht st'. unfold st'.
  rewrite (newHTTPConnection_run_custom _ _ _ u id Hu Ht). simpl.
  split; [reflexivity |]. eexists _, _. split; [reflexivity |].
  split; [apply lookup_insert_eq | reflexivity].
Qed.

(** X16: the outcomes of the construction.  An endpoint that does not
    parse gives the parse error under a stack annotation and leaves the
    store alone: no default transport is made and the caller's transport is
    not adjusted.  An endpoint that parses gives a connection, whatever the
    transport of the configuration; when that is a nil [http.Transport]
    pointer the adjustment is skipped and no transport of the store
    changes. *)
Theorem newHTTPConnection_outcome (endpoint : string) (config : ConnectionConfig)
    (st : Store) :
  let run := newHTTPConnection' endpoint config st in
  (∀ err, url_Parse (FixupEndpointURLScheme endpoint) = inr err →
     run = (st, Err (WithStack err))) ∧
  (∀ u, url_Parse (FixupEndpointURLScheme endpoint) = inl u →
     (∃ c, snd run = Ok c) ∧
     (∀ t, Transport config = Some (HTTPTransport t) →
           transports st !! t = None →
           transports (fst run) = transports st
           ∧ ∃ c conn, snd run = Ok c
                       ∧ conns (fst run) !! c = Some conn
                       ∧ clientTransport (client conn) = Some (HTTPTransport t))).
Proof.
  intros run. unfold run. split.
  - intros err Hu. run_new. by rewrite Hu.
  - intros u Hu. split.
    + destruct (Transport config) as [[t | id]|] eqn:Ht.
      * destruct (transports st !! t) as [tr|] eqn:Htr.
        -- rewrite (newHTTPConnection_run_given _ _ _ u t tr Hu Ht Htr).
           by eexists.
        -- rewrite (newHTTPConnection_run_nil _ _ _ u t Hu Ht Htr). by eexists.
      * rewrite (newHTTPConnection_run_custom _ _ _ u id Hu Ht). by eexists.
      * rewrite (newHTTPConnection_run_default _ _ _ u Hu Ht). by eexists.
    + intros t Ht Htr.
      rewrite (newHTTPConnection_run_nil _ _ _ u t Hu Ht Htr). simpl.
      split; [reflexivity |]. eexists _, _. split; [reflexivity |].
      split; [apply lookup_insert_eq | reflexivity].
Qed.




End ConstructionPaths.

(** ** Unmarshal *)

Lemma captureRaw_conns (slot : option loc) (body : bytes) (st : Store) :
  conns (captureRaw slot body st) = conns st.
Proof. by destruct slot. Qed.

Lemma captureResp_conns (slot : option loc) (r : Response) (st : Store) :
  conns (captureResp slot r st) = conns st.
Proof. by destruct slot. Qed.

Section DecodingPaths.

Variable Target : Type.
Variable json_Unmarshal : bytes → Target → Target + error.
Variable velocypack_Unmarshal : bytes → Target → Target + error.

Local Abbreviation Unmarshal' :=
  (Unmarshal Target json_Unmarshal velocypack_Unmarshal).


Section AfterDo.

Variable HTTPRequest : Type.
Variable createHTTPRequest : Request → URL → option HTTPRequest * option error.
Variable WithContext : HTTPRequest → Context → HTTPRequest.
Variable clientDo : Client → HTTPRequest → http.Response + error.

Local Abbreviation Do' := (Do HTTPRequest createHTTPRequest WithContext clientDo).
Local Abbreviation executed' :=
  (executed HTTPRequest createHTTPRequest WithContext clientDo).

(** X20: the [{}] that [Do] puts in place of an empty body under an
    unrecognised media type is decoded by the JSON codec, under a
    velocypack connection as under a JSON one: what [Do] substitutes,
    [Unmarshal] on the same connection reads as JSON. *)
Theorem Do_empty_object_decodes_as_JSON (ctx : option Context) (c : loc)
    (req : Request) (st : Store) (resp : http.Response)
    (conn : httpConnection) (result : Target) :
  executed' ctx c req st resp [] →
  otherMediaType (mediaType (Header_Get (Header resp) "Content-Type")) →
  StatusCode resp ≠ 401 →
  conns st !! c = Some conn →
  contentType conn = driver.ContentTypeJSON
  ∨ contentType conn = driver.ContentTypeVelocypack →
  let st' := fst (Do' ctx c req st) in
  ∃ r, snd (Do' ctx c req st) = Ok r
       ∧ rawResponseOf r = [Byte.x7b; Byte.x7d]
       ∧ Unmarshal' c (rawResponseOf r) result st'
         = (st', decoded (json_Unmarshal [Byte.x7b; Byte.x7d] result)).
Proof.
  intros Hex [Ej Ev]%otherMediaType_spec Hs Hc Hct st'. unfold st'.
  rewrite (Do_executed _ _ _ _ _ _ _ _ _ _ Hex). cbv zeta.
  rewrite Ej, Ev. apply Z.eqb_neq in Hs. unfold http.StatusUnauthorized.
  rewrite Hs. simpl.
  eexists. split; [reflexivity |]. split; [reflexivity |].
  simpl. unfold Unmarshal.
  erewrite bind_Ok;
    [|apply derefConn_live;
      by rewrite captureResp_conns, !captureRaw_conns].
  destruct Hct as [-> | ->]; simpl; apply decodeWith_decoded.
Qed.

End AfterDo.

End DecodingPaths.

(** ** Connection metadata *)

(** X21: [UpdateEndpoints] does nothing, for any list of endpoints, the
    empty one included, and without reading the receiver: it returns no
    error, the store is what it was, and [Endpoints] still answers with the
    one endpoint of the connection, the string [String] gives. *)
Theorem UpdateEndpoints_keeps_Endpoints (url_String : URL → string)
    (c : loc) (endpoints : list string) (st : Store) :
  Metadata.UpdateEndpoints c endpoints st = (st, Ok tt) ∧
  (∀ conn, conns st !! c = Some conn →
     let st' := fst (Metadata.UpdateEndpoints c endpoints st) in
     snd (Metadata.Endpoints url_String c st')
     = Ok [url_String (endpoint conn)]
     ∧ snd (Metadata.connString url_String c st')
       = Ok (url_String (endpoint conn))
     ∧ Metadata.Endpoints url_String c st' = Metadata.Endpoints url_String c st).
Proof.
  split; [reflexivity |].
  intros conn Hc st'. unfold st'. simpl.
  unfold Metadata.Endpoints, Metadata.connString.
  rewrite !(bind_Ok _ _ _ _ _ (derefConn_live _ _ _ Hc)). done.
Qed.

(** ** Instances of the further properties *)

Lemma Do_writes_only_when_executed_witness :
  let conn := mkHttpConnection (mkURL "http" "localhost:8529" "/" EmptyString)
                driver.ContentTypeJSON (mkClient None None) in
  let st := mkStore {[ 1%positive := conn ]} ∅ ∅ ∅ in
  let resp := http.mkResponse 200 ∅ ([], None) in
  let cx : Context := [(keyRawResponse, BytesPtr 5)] in
  fst (Do unit (λ _ _, (Some (), None)) (λ r _, r) (λ _ _, inl resp)
         (Some cx) 1 (ForeignRequest 3) st) = st.
Proof.
  intros conn st resp cx.
  refine (proj1 (Do_writes_only_when_executed unit (λ _ _, (Some (), None))
                   (λ r _, r) (λ _ _, inl resp) (Some cx) 1 (ForeignRequest 3) st _)).
  intros resp' body (conn' & httpReq & r & _ & Hreq & _). discriminate Hreq.
Defined.

Lemma Do_early_errors_witness :
  let conn := mkHttpConnection (mkURL "http" "localhost:8529" "/" EmptyString)
                driver.ContentTypeJSON (mkClient None None) in
  let st := mkStore {[ 1%positive := conn ]} ∅ ∅ ∅ in
  let cx : Context := [(keyRawResponse, BytesPtr 5)] in
  let req := JSONRequest (mkHttpJSONRequest "GET" "/_api/version") in
  Do unit (λ _ _, (Some (), None)) (λ r _, r)
     (λ _ _, inr (ForeignError "connection refused")) (Some cx) 1 req st
  = (st, Err (WithStack (ForeignError "connection refused"))).
Proof.
  intros conn st cx req.
  refine (proj1 (proj2 (Do_early_errors unit (λ _ _, (Some (), None)) (λ r _, r)
                          (λ _ _, inr (ForeignError "connection refused"))
                          (Some cx) 1 req req st conn ()
                          (ForeignError "connection refused") _ _)) _ _);
    reflexivity.
Defined.

Lemma Do_response_capture_witness :
  let conn := mkHttpConnection (mkURL "http" "localhost:8529" "/" EmptyString)
                driver.ContentTypeJSON (mkClient None None) in
  let st := mkStore {[ 1%positive := conn ]} ∅ ∅ ∅ in
  let resp := http.mkResponse 200 {[ "Content-Type"%string := ["application/json"%string] ]}
                (bytes_of_string "[1,2]", None) in
  let cx : Context := [(keyResponse, ResponsePtr 6)] in
  let req := JSONRequest (mkHttpJSONRequest "GET" "/_api/version") in
  respSlots (fst (Do unit (λ _ _, (Some (), None)) (λ r _, r) (λ _ _, inl resp)
                    (Some cx) 1 req st)) !! 6%positive
  = Some (httpJSONResponse resp (bytes_of_string "[1,2]")).
Proof.
  intros conn st resp cx req.
  apply (Do_response_capture unit (λ _ _, (Some (), None)) (λ r _, r)
           (λ _ _, inl resp) cx 6%positive 1%positive req st).
  - reflexivity.
  - reflexivity.
Defined.

Lemma Do_captures_agree_witness :
  let conn := mkHttpConnection (mkURL "http" "localhost:8529" "/" EmptyString)
                driver.ContentTypeJSON (mkClient None None) in
  let st := mkStore {[ 1%positive := conn ]} ∅ ∅ ∅ in
  let resp := http.mkResponse 204 ∅ ([], None) in
  let cx : Context := [(keyRawResponse, BytesPtr 5)] in
  let req := JSONRequest (mkHttpJSONRequest "DELETE" "/_api/index/7") in
  rawSlots (fst (Do unit (λ _ _, (Some (), None)) (λ r _, r) (λ _ _, inl resp)
                   (Some cx) 1 req st)) !! 5%positive
  = Some [Byte.x7b; Byte.x7d].
Proof.
  intros conn st resp cx req.
  apply (Do_captures_agree unit (λ _ _, (Some (), None)) (λ r _, r)
           (λ _ _, inl resp) cx 5%positive 1%positive req st
           (httpJSONResponse resp [Byte.x7b; Byte.x7d])).
  - reflexivity.
  - reflexivity.
Defined.

Lemma Do_frame_witness :
  let conn := mkHttpConnection (mkURL "http" "localhost:8529" "/" EmptyString)
                driver.ContentTypeJSON (mkClient None None) in
  let st := mkStore {[ 1%positive := conn ]} ∅
              {[ 7%positive := bytes_of_string "kept" ]} ∅ in
  let resp := http.mkResponse 200 {[ "Content-Type"%string := ["application/json"%string] ]}
                (bytes_of_string "[1,2]", None) in
  let cx : Context := [(keyRawResponse, BytesPtr 5)] in
  let req := JSONRequest (mkHttpJSONRequest "GET" "/_api/version") in
  rawSlots (fst (Do unit (λ _ _, (Some (), None)) (λ r _, r) (λ _ _, inl resp)
                   (Some cx) 1 req st)) !! 7%positive
  = Some (bytes_of_string "kept").
Proof.
  intros conn st resp cx req.
  refine (proj1 (proj2 (proj2 (Do_frame unit (λ _ _, (Some (), None)) (λ r _, r)
                                 (λ _ _, inl resp) (Some cx) 1 req st)))
            7%positive _).
  discriminate.
Defined.

Lemma Do_ignores_parameters_witness :
  let conn := mkHttpConnection (mkURL "http" "localhost:8529" "/" EmptyString)
                driver.ContentTypeJSON (mkClient None None) in
  let st := mkStore {[ 1%positive := conn ]} ∅ ∅ ∅ in
  let resp :=
    http.mkResponse 200
      {[ "Content-Type"%string := ["application/json; charset=utf-8"%string] ]}
      (bytes_of_string "[1,2]", None) in
  let req := JSONRequest (mkHttpJSONRequest "GET" "/_api/version") in
  snd (Do unit (λ _ _, (Some (), None)) (λ r _, r) (λ _ _, inl resp) None 1 req st)
  = Ok (httpJSONResponse resp (bytes_of_string "[1,2]")).
Proof.
  intros conn st resp req.
  refine (proj1 (Do_ignores_parameters unit (λ _ _, (Some (), None)) (λ r _, r)
                   (λ _ _, inl resp) None 1 req st resp (bytes_of_string "[1,2]")
                   "application/json" " charset=utf-8" _ _) _).
  - exists conn, req, (). repeat split; reflexivity.
  - reflexivity.
  - left. reflexivity.
Defined.

Lemma Do_without_content_type_witness :
  let conn := mkHttpConnection (mkURL "http" "localhost:8529" "/" EmptyString)
                driver.ContentTypeJSON (mkClient None None) in
  let st := mkStore {[ 1%positive := conn ]} ∅ ∅ ∅ in
  let resp := http.mkResponse 204 ∅ ([], None) in
  let req := JSONRequest (mkHttpJSONRequest "DELETE" "/_api/index/7") in
  snd (Do unit (λ _ _, (Some (), None)) (λ r _, r) (λ _ _, inl resp) None 1 req st)
  = Ok (httpJSONResponse resp [Byte.x7b; Byte.x7d]).
Proof.
  intros conn st resp req.
  refine (proj1 (proj2 (Do_without_content_type unit (λ _ _, (Some (), None))
                          (λ r _, r) (λ _ _, inl resp) None 1 req st resp [] _ _))
            _ _).
  - exists conn, req, (). repeat split; reflexivity.
  - reflexivity.
  - discriminate.
  - reflexivity.
Defined.

Lemma NewRequest_then_Do_witness :
  let conn := mkHttpConnection (mkURL "http" "localhost:8529" "/" EmptyString)
                driver.ContentTypeVelocypack (mkClient None None) in
  let st := mkStore {[ 1%positive := conn ]} ∅ ∅ ∅ in
  let resp := http.mkResponse 200 {[ "Content-Type"%string := ["application/x-velocypack"%string] ]}
                ([Byte.x0a], None) in
  let req := VPackRequest (mkHttpVPackRequest "GET" "/_api/version") in
  snd (Do unit (λ _ _, (Some (), None)) (λ r _, r) (λ _ _, inl resp) None 1 req
         (fst (NewRequest 1 "GET" "/_api/version" st)))
  ≠ Err (WithStack (InvalidArgumentError "request is not a httpRequest")).
Proof.
  intros conn st resp req.
  refine (proj2 (NewRequest_then_Do unit (λ _ _, (Some (), None)) (λ r _, r)
                   (λ _ _, inl resp) None 1 "GET" "/_api/version" st req ()
                   resp [Byte.x0a] _ _ _) "request is not a httpRequest"%string).
  - reflexivity.
  - intros conn' _. split; reflexivity.
  - reflexivity.
Defined.

Lemma newHTTPConnection_shared_transport_witness :
  let tr := mkTransport None None 10 0 0 0 0 None in
  let st := mkStore ∅ {[ 1%positive := tr ]} ∅ ∅ in
  let config := mkConnectionConfig
                  ["http://a:8529"%string; "http://b:8529"%string] None
                  (Some (HTTPTransport 1)) false driver.ContentTypeJSON in
  let parse (s : string) : URL + error := inl (mkURL "http" s "/" EmptyString) in
  let st1 := fst (newHTTPConnection id parse "http://a:8529" config st) in
  let st2 := fst (newHTTPConnection id parse "http://b:8529" config st1) in
  transports st2 = transports st1.
Proof.
  intros tr st config parse st1 st2.
  refine (proj1 (newHTTPConnection_shared_transport id parse
                   "http://a:8529" "http://b:8529" config st
                   (mkURL "http" "http://a:8529" "/" EmptyString)
                   (mkURL "http" "http://b:8529" "/" EmptyString)
                   1%positive tr _ _ _ _));
    reflexivity.
Defined.

Lemma newHTTPConnection_transport_fields_witness :
  let tr := mkTransport (Some (ProxyCustom 4)) None 10 0 5 6 7 (Some 2%positive) in
  let st := mkStore ∅ {[ 1%positive := tr ]} ∅ ∅ in
  let config := mkConnectionConfig ["http://a:8529"%string] (Some 9%positive)
                  (Some (HTTPTransport 1)) false driver.ContentTypeJSON in
  let parse (s : string) : URL + error := inl (mkURL "http" s "/" EmptyString) in
  let st' := fst (newHTTPConnection id parse "http://a:8529" config st) in
  ∃ tr', transports st' !! 1%positive = Some tr'
         ∧ Proxy tr' = Some (ProxyCustom 4)
         ∧ TLSClientConfig tr' = Some 9%positive.
Proof.
  intros tr st config parse st'.
  destruct (proj1 (newHTTPConnection_transport_fields id parse "http://a:8529"
                     config st (mkURL "http" "http://a:8529" "/" EmptyString)
                     1%positive tr eq_refl eq_refl eq_refl))
    as (tr' & Hst' & Hproxy & _ & _ & _ & _ & Htls).
  exists tr'. split; [exact Hst' |]. split; [exact Hproxy | exact Htls].
Defined.

Lemma newHTTPConnection_custom_round_tripper_witness :
  let tr := mkTransport None None 10 0 0 0 0 None in
  let st := mkStore ∅ {[ 1%positive := tr ]} ∅ ∅ in
  let config := mkConnectionConfig ["http://a:8529"%string] (Some 9%positive)
                  (Some (CustomRoundTripper 3)) false driver.ContentTypeJSON in
  let parse (s : string) : URL + error := inl (mkURL "http" s "/" EmptyString) in
  transports (fst (newHTTPConnection id parse "http://a:8529" config st))
  = transports st.
Proof.
  intros tr st config parse.
  refine (proj1 (newHTTPConnection_custom_round_tripper id parse "http://a:8529"
                   config st (mkURL "http" "http://a:8529" "/" EmptyString)
                   3%positive _ _));
    reflexivity.
Defined.

Lemma newHTTPConnection_outcome_witness :
  let st := mkStore ∅ ∅ ∅ ∅ in
  let config := mkConnectionConfig ["%zz"%string] None None false
                  driver.ContentTypeJSON in
  let parse (s : string) : URL + error := inr (ForeignError "invalid URL escape") in
  newHTTPConnection id parse "%zz" config st
  = (st, Err (WithStack (ForeignError "invalid URL escape"))).
Proof.
  intros st config parse.
  refine (proj1 (newHTTPConnection_outcome id parse "%zz" config st)
            (ForeignError "invalid URL escape") _).
  reflexivity.
Defined.



Lemma Do_empty_object_decodes_as_JSON_witness :
  let conn := mkHttpConnection (mkURL "http" "localhost:8529" "/" EmptyString)
                driver.ContentTypeVelocypack (mkClient None None) in
  let st := mkStore {[ 1%positive := conn ]} ∅ ∅ ∅ in
  let resp := http.mkResponse 204 ∅ ([], None) in
  let req := VPackRequest (mkHttpVPackRequest "DELETE" "/_api/index/7") in
  let json (data : bytes) (_ : nat) : nat + error := inl (length data) in
  let vpack (data : bytes) (_ : nat) : nat + error :=
    inr (ForeignError "not a velocypack slice") in
  let st' := fst (Do unit (λ _ _, (Some (), None)) (λ r _, r) (λ _ _, inl resp)
                    None 1 req st) in
  ∃ r, Unmarshal nat json vpack 1 (rawResponseOf r) 0%nat st' = (st', Ok 2%nat).
Proof.
  intros conn st resp req json vpack st'.
  destruct (Do_empty_object_decodes_as_JSON nat json vpack unit
              (λ _ _, (Some (), None)) (λ r _, r) (λ _ _, inl resp)
              None 1 req st resp conn 0%nat)
    as (r & _ & _ & Hdec).
  - exists conn, req, (). repeat split; reflexivity.
  - split.
    + intros [H | H]; vm_compute in H; discriminate H.
    + intros H. vm_compute in H. discriminate H.
  - discriminate.
  - reflexivity.
  - right. reflexivity.
  - exists r. exact Hdec.
Defined.

Lemma UpdateEndpoints_keeps_Endpoints_witness :
  let conn := mkHttpConnection (mkURL "http" "localhost:8529" "/" EmptyString)
                driver.ContentTypeJSON (mkClient None None) in
  let st := mkStore {[ 1%positive := conn ]} ∅ ∅ ∅ in
  let show (u : URL) : string := Scheme u +:+ "://" +:+ Host u in
  snd (Metadata.Endpoints show 1
         (fst (Metadata.UpdateEndpoints 1 ["http://other:8529"%string] st)))
  = Ok ["http://localhost:8529"%string].
Proof.
  intros conn st show.
  refine (proj1 (proj2 (UpdateEndpoints_keeps_Endpoints show 1
                          ["http://other:8529"%string] st) conn _)).
  reflexivity.
Defined.


